(** * Commission lifecycle of the art-commission canister

    Shallow embedding of the canister of [src/index.ts] (module [Index]) and
    of its sibling [src/smartcontract/index.ts] (module [SmartContract]),
    followed by the properties of the commission lifecycle.

    Conventions of the embedding:
    - a [Principal] is identified with its text form, the one the template
      literals of the error messages print;
    - [nat64] values (JS bigint) are [N], [int8] values (JS number) are [Z];
      arithmetic on them is the exact arithmetic JS performs on small
      integers, the range of [int8] is the predicate [int8]. A record whose
      [int8] field has left that range cannot be encoded, and the call that
      built it traps instead of replying: the handlers below are the handler
      bodies, exact on records that can be encoded, and a theorem that
      asserts the reply of a decrement carries the bound ([revisable], or a
      sign condition that implies it);
    - a [StableBTreeMap] is a [gmap]: [get] is lookup, [insert] overwrites;
      [get] hands out a decoded copy, so a handler mutates a private record
      and only [insert] writes it back;
    - [generateId] draws random bytes: the drawn identifier is an explicit
      argument of the three creating handlers. *)

From Stdlib Require Import ZArith NArith Bool.
From stdpp Require Import gmap strings list fin_maps.

Local Open Scope string_scope.

(** ** Data model (the [Record] declarations shared by both files) *)

Definition Principal : Type := string.

Record Artist : Type := mkArtist {
  artistID : Principal;
  artistName : string;
  price : N;
  number_of_revision : Z
}.

Record Customer : Type := mkCustomer {
  customerID : Principal;
  customerName : string
}.

Record Status : Type := mkStatus {
  Pending : bool;
  Accepted : bool;
  Rejected : bool;
  ArtworkSubmitted : bool;
  Approved : bool;
  Cancelled : bool
}.

(** The fields [customerID], [artistID] and [price] of a commission carry the
    prefix [c_] because a Rocq module cannot declare a projection twice. *)
Record Commission : Type := mkCommission {
  commissionID : Principal;
  c_customerID : Principal;
  c_artistID : Principal;
  c_price : N;
  remaining_revision : Z;
  artURL : string;
  status : Status
}.

Inductive Result (A E : Type) : Type :=
| Ok (value : A)
| Err (error : E).
Arguments Ok {A E} value.
Arguments Err {A E} error.

(** The three stable maps of the canister. *)
Record State : Type := mkState {
  artists : gmap string Artist;
  customers : gmap string Customer;
  commissions : gmap string Commission
}.

Definition init : State := mkState ∅ ∅ ∅.


(** Assignments to a single field, as the handlers write them. *)
Definition set_Accepted (b : bool) (s : Status) : Status :=
  mkStatus (Pending s) b (Rejected s) (ArtworkSubmitted s) (Approved s) (Cancelled s).
Definition set_Rejected (b : bool) (s : Status) : Status :=
  mkStatus (Pending s) (Accepted s) b (ArtworkSubmitted s) (Approved s) (Cancelled s).
Definition set_ArtworkSubmitted (b : bool) (s : Status) : Status :=
  mkStatus (Pending s) (Accepted s) (Rejected s) b (Approved s) (Cancelled s).
Definition set_Approved (b : bool) (s : Status) : Status :=
  mkStatus (Pending s) (Accepted s) (Rejected s) (ArtworkSubmitted s) b (Cancelled s).
Definition set_Cancelled (b : bool) (s : Status) : Status :=
  mkStatus (Pending s) (Accepted s) (Rejected s) (ArtworkSubmitted s) (Approved s) b.

Definition set_status (s : Status) (c : Commission) : Commission :=
  mkCommission (commissionID c) (c_customerID c) (c_artistID c) (c_price c)
    (remaining_revision c) (artURL c) s.
Definition set_artURL (u : string) (c : Commission) : Commission :=
  mkCommission (commissionID c) (c_customerID c) (c_artistID c) (c_price c)
    (remaining_revision c) u (status c).
Definition set_remaining_revision (r : Z) (c : Commission) : Commission :=
  mkCommission (commissionID c) (c_customerID c) (c_artistID c) (c_price c)
    r (artURL c) (status c).

Definition insert_artist (k : Principal) (a : Artist) (st : State) : State :=
  mkState (<[k := a]> (artists st)) (customers st) (commissions st).
Definition insert_customer (k : Principal) (c : Customer) (st : State) : State :=
  mkState (artists st) (<[k := c]> (customers st)) (commissions st).
Definition insert_commission (k : Principal) (c : Commission) (st : State) : State :=
  mkState (artists st) (customers st) (<[k := c]> (commissions st)).

(** The status literal of [createCommission]. *)
Definition fresh_status : Status := mkStatus true false false false false false.

(** The six method names handed to [checkCommissionValidity]. *)
Definition m_approve : string := "approve commission".
Definition m_revision : string := "request revision".
Definition m_accept : string := "accept commission".
Definition m_reject : string := "reject commission".
Definition m_submit : string := "submit artwork".
Definition m_cancel : string := "cancel commission".

(** ** [src/index.ts] *)
Module Index.

Inductive Error : Type :=
| NotFound (msg : string)
| NoRemainingRevision (msg : string)
| InvalidTransaction (msg : string).

Definition checkCommissionValidity (status : Status) (methodType : string) : string :=
  let commissionValidity :=
    if Cancelled status then "commission has been cancelled"
    else if Approved status then "commission has ended"
    else if Rejected status then "commission has been rejected"
    else if negb (Accepted status)
            && (negb (String.eqb methodType "accept commission")
                && negb (String.eqb methodType "reject commission"))
         then "commission has yet to be accepted"
    else if Accepted status
            && (String.eqb methodType "accept commission"
                || String.eqb methodType "reject commission")
         then "commission has been accepted"
    else if negb (ArtworkSubmitted status)
            && (String.eqb methodType "approve commission"
                || String.eqb methodType "request revision")
         then "artwork not finished"
    else "valid" in
  if negb (String.eqb commissionValidity "valid")
  then "cannot " +:+ methodType +:+ ": " +:+ commissionValidity
  else "valid".

Definition createArtist (fresh : Principal) (artistName : string) (price : N)
    (number_of_revision : Z) (st : State) : Artist * State :=
  let artist := mkArtist fresh artistName price number_of_revision in
  (artist, insert_artist (artistID artist) artist st).

Definition createCustomer (fresh : Principal) (customerName : string)
    (st : State) : Customer * State :=
  let customer := mkCustomer fresh customerName in
  (customer, insert_customer (customerID customer) customer st).

(** The arguments [artistID] and [customerID] are written [aID] and [cID],
    the projections of the same name being in scope. *)
Definition createCommission (fresh aID cID : Principal) (st : State)
    : Result Commission Error * State :=
  match artists st !! aID with
  | None =>
      (Err (NotFound ("cannot create the commission: artist=" +:+ aID
                      +:+ " not found")), st)
  | Some artist =>
      match customers st !! cID with
      | None =>
          (Err (NotFound ("cannot create the commission: customer=" +:+ cID
                          +:+ " not found")), st)
      | Some _ =>
          (* [...artist] contributes artistID and price; artistName and
             number_of_revision are not fields of [Commission]. *)
          let commission :=
            mkCommission fresh cID (artistID artist) (price artist)
              (number_of_revision artist) EmptyString fresh_status in
          (Ok commission, insert_commission fresh commission st)
      end
  end.

Definition approveCommission (commissionID : Principal) (st : State)
    : Result Commission Error * State :=
  match commissions st !! commissionID with
  | None =>
      (Err (NotFound ("cannot approve commission: commission=" +:+ commissionID
                      +:+ " not found")), st)
  | Some commission =>
      let commissionValidity :=
        checkCommissionValidity (status commission) "approve commission" in
      if negb (String.eqb commissionValidity "valid")
      then (Err (InvalidTransaction commissionValidity), st)
      else
        let commission := set_status (set_Approved true (status commission)) commission in
        (Ok commission, insert_commission commissionID commission st)
  end.

(** [remaining_revision--] is the decrement of a JS number. From -128, the
    least [int8], it yields -129, which no [int8] field can carry: the real
    call then throws on encoding and gives no reply, where this body
    answers [Ok]. *)
Definition requestRevision (commissionID : Principal) (st : State)
    : Result Commission Error * State :=
  match commissions st !! commissionID with
  | None =>
      (Err (NotFound ("cannot request revision: commission=" +:+ commissionID
                      +:+ " not found")), st)
  | Some commission =>
      let commissionValidity :=
        checkCommissionValidity (status commission) "request revision" in
      if negb (String.eqb commissionValidity "valid")
      then (Err (InvalidTransaction commissionValidity), st)
      else
        if Z.eqb (remaining_revision commission) 0
        then (Err (NoRemainingRevision "no more revision can be made"), st)
        else
          let commission :=
            set_remaining_revision (remaining_revision commission - 1) commission in
          let commission :=
            set_status (set_ArtworkSubmitted false (status commission)) commission in
          (Ok commission, insert_commission commissionID commission st)
  end.

Definition acceptCommission (commissionID : Principal) (st : State)
    : Result Commission Error * State :=
  match commissions st !! commissionID with
  | None =>
      (Err (NotFound ("cannot accept commission: commission=" +:+ commissionID
                      +:+ " not found")), st)
  | Some commission =>
      let commissionValidity :=
        checkCommissionValidity (status commission) "accept commission" in
      if negb (String.eqb commissionValidity "valid")
      then (Err (InvalidTransaction commissionValidity), st)
      else
        let commission := set_status (set_Accepted true (status commission)) commission in
        (Ok commission, insert_commission commissionID commission st)
  end.

Definition rejectCommission (commissionID : Principal) (st : State)
    : Result Commission Error * State :=
  match commissions st !! commissionID with
  | None =>
      (Err (NotFound ("cannot reject commission: commission=" +:+ commissionID
                      +:+ " not found")), st)
  | Some commission =>
      let commissionValidity :=
        checkCommissionValidity (status commission) "reject commission" in
      if negb (String.eqb commissionValidity "valid")
      then (Err (InvalidTransaction commissionValidity), st)
      else
        let commission := set_status (set_Rejected true (status commission)) commission in
        (Ok commission, insert_commission commissionID commission st)
  end.

(** The argument [artURL] is written [url], the projection being in scope. *)
Definition submitArtwork (commissionID : Principal) (url : string) (st : State)
    : Result Commission Error * State :=
  match commissions st !! commissionID with
  | None =>
      (Err (NotFound ("cannot submit artwork: commission=" +:+ commissionID
                      +:+ " not found")), st)
  | Some commission =>
      let commissionValidity :=
        checkCommissionValidity (status commission) "submit artwork" in
      if negb (String.eqb commissionValidity "valid")
      then (Err (InvalidTransaction commissionValidity), st)
      else
        let commission := set_artURL url commission in
        let commission :=
          set_status (set_ArtworkSubmitted true (status commission)) commission in
        (Ok commission, insert_commission commissionID commission st)
  end.

Definition cancelCommission (commissionID : Principal) (st : State)
    : Result Commission Error * State :=
  match commissions st !! commissionID with
  | None =>
      (Err (NotFound ("cannot cancel commission: commission=" +:+ commissionID
                      +:+ " not found")), st)
  | Some commission =>
      let commissionValidity :=
        checkCommissionValidity (status commission) "cancel commission" in
      if negb (String.eqb commissionValidity "valid")
      then (Err (InvalidTransaction commissionValidity), st)
      else
        let commission := set_status (set_Cancelled true (status commission)) commission in
        (Ok commission, insert_commission commissionID commission st)
  end.

(** *** Calls and runs

    An update call of the canister with its arguments (and, for the creating
    handlers, the identifier [generateId] drew).  The queries do not write
    and are left out. *)
Inductive Call : Type :=
| CreateArtist (fresh : Principal) (artistName : string) (price : N)
    (number_of_revision : Z)
| CreateCustomer (fresh : Principal) (customerName : string)
| CreateCommission (fresh aID cID : Principal)
| ApproveCommission (id : Principal)
| RequestRevision (id : Principal)
| AcceptCommission (id : Principal)
| RejectCommission (id : Principal)
| SubmitArtwork (id : Principal) (url : string)
| CancelCommission (id : Principal).

(** The state a call leaves behind. *)
Definition step (c : Call) (st : State) : State :=
  match c with
  | CreateArtist fresh n p r => snd (createArtist fresh n p r st)
  | CreateCustomer fresh n => snd (createCustomer fresh n st)
  | CreateCommission fresh a c => snd (createCommission fresh a c st)
  | ApproveCommission id => snd (approveCommission id st)
  | RequestRevision id => snd (requestRevision id st)
  | AcceptCommission id => snd (acceptCommission id st)
  | RejectCommission id => snd (rejectCommission id st)
  | SubmitArtwork id url => snd (submitArtwork id url st)
  | CancelCommission id => snd (cancelCommission id st)
  end.

Fixpoint run (cs : list Call) (st : State) : State :=
  match cs with
  | [] => st
  | c :: cs' => run cs' (step c st)
  end.


(** *** Queries by identifier

    [readArtistById], [readCustomerById] and [readCommissionById] return
    what [get] returns, an [Opt]. *)
Definition readArtistById (id : Principal) (st : State) : option Artist :=
  artists st !! id.

Definition readCustomerById (id : Principal) (st : State) : option Customer :=
  customers st !! id.

Definition readCommissionById (id : Principal) (st : State) : option Commission :=
  commissions st !! id.

End Index.

(** ** [src/smartcontract/index.ts]

    The sibling canister.  Its record declarations are those above; the
    handlers that differ from [src/index.ts] are embedded here: the two
    entity constructors and [submitArtwork], which validate their arguments,
    and the guard, which has one more branch.  Its [Error] variant declares
    no [InvalidInput] case, the handlers construct one all the same. *)
Module SmartContract.

Inductive Error : Type :=
| NotFound (msg : string)
| NoRemainingRevision (msg : string)
| InvalidTransaction (msg : string)
| InvalidInput (msg : string).

(** [Status] has no field [remaining_revision]: the read yields
    [undefined], and [undefined === 0] is false. *)
Definition status_remaining_revision (status : Status) : option Z := None.

Definition strict_eq (v : option Z) (n : Z) : bool :=
  match v with
  | Some z => Z.eqb z n
  | None => false
  end.

Definition checkCommissionValidity (status : Status) (methodType : string) : string :=
  let commissionValidity :=
    if Cancelled status then "commission has been cancelled"
    else if Approved status then "commission has ended"
    else if Rejected status then "commission has been rejected"
    else if negb (Accepted status)
            && (negb (String.eqb methodType "accept commission")
                && negb (String.eqb methodType "reject commission"))
         then "commission has yet to be accepted"
    else if Accepted status
            && (String.eqb methodType "accept commission"
                || String.eqb methodType "reject commission")
         then "commission has been accepted"
    else if negb (ArtworkSubmitted status)
            && (String.eqb methodType "approve commission"
                || String.eqb methodType "request revision")
         then "artwork not finished"
    else if String.eqb methodType "request revision"
            && strict_eq (status_remaining_revision status) 0
         then "no more revision can be made"
    else "valid" in
  if negb (String.eqb commissionValidity "valid")
  then "cannot " +:+ methodType +:+ ": " +:+ commissionValidity
  else "valid".

(** [!artistName], [!price] and [!number_of_revision]: the empty string,
    [0n] and [0] are the falsy values of their types.  The handler returns
    the bare record on success, written [Ok] here. *)
Definition createArtist (fresh : Principal) (artistName : string) (price : N)
    (number_of_revision : Z) (st : State) : Result Artist Error * State :=
  if String.eqb artistName EmptyString || N.eqb price 0 || Z.eqb number_of_revision 0
  then (Err (InvalidInput "Missing required fields in the artist object"), st)
  else
    let artist := mkArtist fresh artistName price number_of_revision in
    (Ok artist, insert_artist (artistID artist) artist st).

Definition createCustomer (fresh : Principal) (customerName : string)
    (st : State) : Result Customer Error * State :=
  if String.eqb customerName EmptyString
  then (Err (InvalidInput "Missing required fields in the customer object"), st)
  else
    let customer := mkCustomer fresh customerName in
    (Ok customer, insert_customer (customerID customer) customer st).

Definition submitArtwork (commissionID : Principal) (url : string) (st : State)
    : Result Commission Error * State :=
  match commissions st !! commissionID with
  | None =>
      (Err (NotFound ("cannot submit artwork: commission=" +:+ commissionID
                      +:+ " not found")), st)
  | Some commission =>
      let commissionValidity :=
        checkCommissionValidity (status commission) "submit artwork" in
      if negb (String.eqb commissionValidity "valid")
      then (Err (InvalidTransaction commissionValidity), st)
      else if String.eqb url EmptyString
      then (Err (InvalidInput "Missing required fields in the artwork object"), st)
      else
        let commission := set_artURL url commission in
        let commission :=
          set_status (set_ArtworkSubmitted true (status commission)) commission in
        (Ok commission, insert_commission commissionID commission st)
  end.

End SmartContract.

(** ** The guard as the specification words it

    A rule is a condition on the status and the operation together with the
    reason it denies with; the chain is searched from the front and the first
    rule whose condition holds decides. *)

Inductive Verdict : Type :=
| Permitted
| Denied (reason : string).

Definition is_accept_or_reject (op : string) : bool :=
  String.eqb op m_accept || String.eqb op m_reject.

Definition is_approve_or_revision (op : string) : bool :=
  String.eqb op m_approve || String.eqb op m_revision.

Definition rules : list ((Status -> string -> bool) * string) :=
  [ (fun s _ => Cancelled s, "commission has been cancelled");
    (fun s _ => Approved s, "commission has ended");
    (fun s _ => Rejected s, "commission has been rejected");
    (fun s op => negb (is_accept_or_reject op) && negb (Accepted s),
      "commission has yet to be accepted");
    (fun s op => Accepted s && is_accept_or_reject op,
      "commission has been accepted");
    (fun s op => is_approve_or_revision op && negb (ArtworkSubmitted s),
      "artwork not finished") ].

Fixpoint first_match (rs : list ((Status -> string -> bool) * string))
    (s : Status) (op : string) : Verdict :=
  match rs with
  | [] => Permitted
  | (cond, reason) :: rs' => if cond s op then Denied reason else first_match rs' s op
  end.

Definition guard (s : Status) (op : string) : Verdict := first_match rules s op.

(** How the facade surfaces a verdict. *)
Definition surfaced (op : string) (v : Verdict) : string :=
  match v with
  | Permitted => "valid"
  | Denied reason => "cannot " +:+ op +:+ ": " +:+ reason
  end.

(** Terminal statuses. *)
Definition terminal (s : Status) : bool := Cancelled s || Approved s || Rejected s.

(** ** Sample runs used by the examples below *)

Definition demo_calls : list Index.Call :=
  [ Index.CreateArtist "a1" "Ann" 100 1;
    Index.CreateCustomer "c1" "Bob";
    Index.CreateCommission "k1" "a1" "c1" ].

(** An artist with budget 1 and a customer registered, *)
Definition st_registered : State :=
  Index.run [ Index.CreateArtist "a1" "Ann" 100 1;
              Index.CreateCustomer "c1" "Bob" ] init.
(** ... a commission just created, *)
Definition st_pending : State := Index.run demo_calls init.
(** ... then accepted, *)
Definition st_accepted : State := Index.step (Index.AcceptCommission "k1") st_pending.
(** ... then with artwork ["u1"] handed in, *)
Definition st_submitted : State := Index.step (Index.SubmitArtwork "k1" "u1") st_accepted.
(** ... then sent back for revision and handed in again as ["u2"], *)
Definition st_revised : State := Index.step (Index.RequestRevision "k1") st_submitted.
Definition st_resubmitted : State := Index.step (Index.SubmitArtwork "k1" "u2") st_revised.
(** ... and, on another branch, approved after the first hand-in. *)
Definition st_approved : State := Index.step (Index.ApproveCommission "k1") st_submitted.


(** The error a denial with [reason] is surfaced as. *)
Definition denial (op reason : string) : Index.Error :=
  Index.InvalidTransaction ("cannot " +:+ op +:+ ": " +:+ reason).

(** The facade's table: every handler with the method name it hands to the
    guard ([submitArtwork] at a given url). *)
Definition handlers (url : string)
    : list (string * (Principal -> State -> Result Commission Index.Error * State)) :=
  [ (m_approve, Index.approveCommission);
    (m_revision, Index.requestRevision);
    (m_accept, Index.acceptCommission);
    (m_reject, Index.rejectCommission);
    (m_submit, fun id => Index.submitArtwork id url);
    (m_cancel, Index.cancelCommission) ].

(** The record [createCommission] builds for artist [a]. *)
Definition created (fresh cID : Principal) (a : Artist) : Commission :=
  mkCommission fresh cID (artistID a) (price a) (number_of_revision a) EmptyString fresh_status.

(** What one call may do to a commission it finds in the store. *)
Definition evolves (call : Index.Call) (id : Principal) (c c' : Commission) : Prop :=
  Pending (status c') = Pending (status c)
  /\ c_price c' = c_price c
  /\ (remaining_revision c' = remaining_revision c
      \/ (call = Index.RequestRevision id
          /\ remaining_revision c <> 0%Z
          /\ remaining_revision c' = (remaining_revision c - 1)%Z)).

(** A call that draws [id] for a new commission. *)
Definition draws (id : Principal) (call : Index.Call) : Prop :=
  exists a cu, call = Index.CreateCommission id a cu.

(** A decrement of [remaining_revision] stays within [int8]. *)
Definition revisable (c : Commission) : Prop :=
  (-128 < remaining_revision c <= 127)%Z.

(** ** The lifecycle calls, read as one scheme

    Each of the six handlers looks the commission up, asks the guard with its
    own method name and, when let through, writes one update back. *)
Definition is_permitted (v : Verdict) : bool :=
  match v with
  | Permitted => true
  | Denied _ => false
  end.

(** The key, the method name and the update of a lifecycle call. *)
Definition lifecycle (call : Index.Call)
    : option (Principal * string * (Commission -> Commission)) :=
  match call with
  | Index.ApproveCommission id =>
      Some (id, m_approve, fun c => set_status (set_Approved true (status c)) c)
  | Index.RequestRevision id =>
      Some (id, m_revision,
            fun c => set_status (set_ArtworkSubmitted false (status c))
                       (set_remaining_revision (remaining_revision c - 1) c))
  | Index.AcceptCommission id =>
      Some (id, m_accept, fun c => set_status (set_Accepted true (status c)) c)
  | Index.RejectCommission id =>
      Some (id, m_reject, fun c => set_status (set_Rejected true (status c)) c)
  | Index.SubmitArtwork id url =>
      Some (id, m_submit,
            fun c => set_status (set_ArtworkSubmitted true (status c)) (set_artURL url c))
  | Index.CancelCommission id =>
      Some (id, m_cancel, fun c => set_status (set_Cancelled true (status c)) c)
  | _ => None
  end.

(** The second test of [requestRevision]: no revision left. *)
Definition exhausted (op : string) (c : Commission) : bool :=
  String.eqb op m_revision && Z.eqb (remaining_revision c) 0.

(** The shapes a status takes along the lifecycle. *)
Definition lifecycle_status (s : Status) : bool :=
  Pending s
  && implb (ArtworkSubmitted s) (Accepted s)
  && implb (Approved s) (Accepted s && ArtworkSubmitted s && negb (Cancelled s))
  && implb (Rejected s)
       (negb (Accepted s) && negb (Approved s) && negb (Cancelled s))
  && implb (Cancelled s) (Accepted s).

(** Every record sits under its own identifier, and a commission names an
    artist and a customer that are in their stores. *)
Definition consistent (st : State) : Prop :=
  (forall k a, artists st !! k = Some a -> artistID a = k)
  /\ (forall k c, customers st !! k = Some c -> customerID c = k)
  /\ (forall k c, commissions st !! k = Some c ->
        commissionID c = k
        /\ is_Some (artists st !! c_artistID c)
        /\ is_Some (customers st !! c_customerID c)).

(** The keys of the three stores of [st] are keys of those of [st']. *)
Definition keys_kept (st st' : State) : Prop :=
  (forall k, is_Some (artists st !! k) -> is_Some (artists st' !! k))
  /\ (forall k, is_Some (customers st !! k) -> is_Some (customers st' !! k))
  /\ (forall k, is_Some (commissions st !! k) -> is_Some (commissions st' !! k)).

(** The facade's table once more, each handler with the update it writes. *)
Definition facade (url : string)
    : list (string * (Principal -> State -> Result Commission Index.Error * State)
            * (Commission -> Commission)) :=
  [ (m_approve, Index.approveCommission,
      fun c => set_status (set_Approved true (status c)) c);
    (m_revision, Index.requestRevision,
      fun c => set_status (set_ArtworkSubmitted false (status c))
                 (set_remaining_revision (remaining_revision c - 1) c));
    (m_accept, Index.acceptCommission,
      fun c => set_status (set_Accepted true (status c)) c);
    (m_reject, Index.rejectCommission,
      fun c => set_status (set_Rejected true (status c)) c);
    (m_submit, fun id => Index.submitArtwork id url,
      fun c => set_status (set_ArtworkSubmitted true (status c)) (set_artURL url c));
    (m_cancel, Index.cancelCommission,
      fun c => set_status (set_Cancelled true (status c)) c) ].



(** ** Auxiliary facts *)

Lemma check_refines_guard (s : Status) (op : string) :
  Index.checkCommissionValidity s op = surfaced op (guard s op).
Proof.
  destruct s as [p a r w ap c].
  unfold Index.checkCommissionValidity, guard, rules, first_match,
    is_accept_or_reject, is_approve_or_revision,
    m_accept, m_reject, m_approve, m_revision;
    cbn [Pending Accepted Rejected ArtworkSubmitted Approved Cancelled].
  destruct c, ap, r, a, w;
    destruct (String.eqb op "accept commission");
    destruct (String.eqb op "reject commission");
    destruct (String.eqb op "approve commission");
    destruct (String.eqb op "request revision"); reflexivity.
Qed.

Lemma check_valid_test (s : Status) (op : string) :
  negb (String.eqb (Index.checkCommissionValidity s op) "valid")
  = match guard s op with Permitted => false | Denied _ => true end.
Proof.
  rewrite check_refines_guard. destruct (guard s op); reflexivity.
Qed.

(** A terminal status is denied whatever the operation. *)
Lemma guard_terminal (s : Status) (op : string) :
  terminal s = true -> exists reason, guard s op = Denied reason.
Proof.
  destruct s as [p a r w ap c]; unfold terminal, guard; cbn.
  destruct c; [eauto |]. destruct ap; [eauto |]. destruct r; [eauto | discriminate].
Qed.

Lemma guard_approved (s : Status) (op : string) :
  Cancelled s = false -> Approved s = true ->
  guard s op = Denied "commission has ended".
Proof.
  destruct s as [p a r w ap c]; unfold guard; cbn. by intros -> ->.
Qed.

(** Each handler, read through the guard. *)
Ltac by_guard :=
  cbv zeta; rewrite check_valid_test, check_refines_guard;
  unfold m_approve, m_revision, m_accept, m_reject, m_submit, m_cancel;
  match goal with |- context [guard ?s ?m] => destruct (guard s m) end;
  reflexivity.

Section Handlers.
Variables (st : State) (id : Principal) (c : Commission).
Hypothesis Hget : commissions st !! id = Some c.

Lemma approve_unfold :
  Index.approveCommission id st =
  match guard (status c) m_approve with
  | Denied reason => (Err (denial m_approve reason), st)
  | Permitted =>
      let c' := set_status (set_Approved true (status c)) c in
      (Ok c', insert_commission id c' st)
  end.
Proof.
  unfold Index.approveCommission. rewrite Hget. by_guard.
Qed.

Lemma accept_unfold :
  Index.acceptCommission id st =
  match guard (status c) m_accept with
  | Denied reason => (Err (denial m_accept reason), st)
  | Permitted =>
      let c' := set_status (set_Accepted true (status c)) c in
      (Ok c', insert_commission id c' st)
  end.
Proof.
  unfold Index.acceptCommission. rewrite Hget. by_guard.
Qed.

Lemma reject_unfold :
  Index.rejectCommission id st =
  match guard (status c) m_reject with
  | Denied reason => (Err (denial m_reject reason), st)
  | Permitted =>
      let c' := set_status (set_Rejected true (status c)) c in
      (Ok c', insert_commission id c' st)
  end.
Proof.
  unfold Index.rejectCommission. rewrite Hget. by_guard.
Qed.

Lemma cancel_unfold :
  Index.cancelCommission id st =
  match guard (status c) m_cancel with
  | Denied reason => (Err (denial m_cancel reason), st)
  | Permitted =>
      let c' := set_status (set_Cancelled true (status c)) c in
      (Ok c', insert_commission id c' st)
  end.
Proof.
  unfold Index.cancelCommission. rewrite Hget. by_guard.
Qed.

Lemma submit_unfold (url : string) :
  Index.submitArtwork id url st =
  match guard (status c) m_submit with
  | Denied reason => (Err (denial m_submit reason), st)
  | Permitted =>
      let c' := set_status (set_ArtworkSubmitted true (status c)) (set_artURL url c) in
      (Ok c', insert_commission id c' st)
  end.
Proof.
  unfold Index.submitArtwork. rewrite Hget. by_guard.
Qed.

Lemma revision_unfold :
  Index.requestRevision id st =
  match guard (status c) m_revision with
  | Denied reason => (Err (denial m_revision reason), st)
  | Permitted =>
      if Z.eqb (remaining_revision c) 0
      then (Err (Index.NoRemainingRevision "no more revision can be made"), st)
      else
        let c' := set_status (set_ArtworkSubmitted false (status c))
                    (set_remaining_revision (remaining_revision c - 1) c) in
        (Ok c', insert_commission id c' st)
  end.
Proof.
  unfold Index.requestRevision. rewrite Hget. by_guard.
Qed.
End Handlers.

Lemma evolves_refl call id c : evolves call id c c.
Proof. unfold evolves; auto. Qed.

Lemma denied_handler (url op : string) h (st : State) (id : Principal)
    (c : Commission) (reason : string) :
  In (op, h) (handlers url) ->
  commissions st !! id = Some c ->
  guard (status c) op = Denied reason ->
  h id st = (Err (denial op reason), st).
Proof.
  intros Hin Hget Hg. unfold handlers in Hin. cbn [In] in Hin.
  destruct Hin as [E|[E|[E|[E|[E|[E|[]]]]]]]; injection E as <- <-.
  - rewrite (approve_unfold _ _ _ Hget), Hg. reflexivity.
  - rewrite (revision_unfold _ _ _ Hget), Hg. reflexivity.
  - rewrite (accept_unfold _ _ _ Hget), Hg. reflexivity.
  - rewrite (reject_unfold _ _ _ Hget), Hg. reflexivity.
  - rewrite (submit_unfold _ _ _ Hget), Hg. reflexivity.
  - rewrite (cancel_unfold _ _ _ Hget), Hg. reflexivity.
Qed.

(** The store after a call, entry by entry: an entry is either the record a
    successful [createCommission] just built, or the evolution of the entry
    found under the same key. *)
Ltac kept :=
  let H := fresh "H" in
  intros H; right; eexists; split; [exact H | apply evolves_refl].

Ltac written k id c :=
  destruct (decide (k = id)) as [->|?];
  [ rewrite lookup_insert_eq; intros [= <-]; right;
    exists c; split; [done | unfold evolves; cbn; auto 6]
  | rewrite lookup_insert_ne by done; kept ].

Ltac through_guard :=
  match goal with
  | |- context [guard ?s ?m] => destruct (guard s m)
  end; cbn [snd commissions insert_commission].

Lemma step_commission (call : Index.Call) (st : State) (id : Principal)
    (c' : Commission) :
  commissions (Index.step call st) !! id = Some c' ->
  (exists a cu art, call = Index.CreateCommission id a cu
      /\ artists st !! a = Some art /\ is_Some (customers st !! cu)
      /\ c' = created id cu art)
  \/ (exists c, commissions st !! id = Some c /\ evolves call id c c').
Proof.
  destruct call as [f n p r|f n|f a cu|k|k|k|k|k url|k]; cbn [Index.step].
  - cbn. kept.
  - cbn. kept.
  - unfold Index.createCommission.
    destruct (artists st !! a) as [art|] eqn:Ha; cbn; [| kept].
    destruct (customers st !! cu) as [cust|] eqn:Hc; cbn; [| kept].
    destruct (decide (f = id)) as [->|Hne].
    + rewrite lookup_insert_eq. intros [= <-]. left.
      exists a, cu, art. rewrite Hc. eauto.
    + rewrite lookup_insert_ne by done. kept.
  - destruct (commissions st !! k) as [c|] eqn:Hk.
    + rewrite (approve_unfold _ _ _ Hk). through_guard; [written k id c | kept].
    + unfold Index.approveCommission. rewrite Hk. cbn. kept.
  - destruct (commissions st !! k) as [c|] eqn:Hk.
    + rewrite (revision_unfold _ _ _ Hk). through_guard; [| kept].
      destruct (Z.eqb_spec (remaining_revision c) 0) as [Hz|Hz];
        cbn [snd commissions insert_commission]; [kept | written k id c].
    + unfold Index.requestRevision. rewrite Hk. cbn. kept.
  - destruct (commissions st !! k) as [c|] eqn:Hk.
    + rewrite (accept_unfold _ _ _ Hk). through_guard; [written k id c | kept].
    + unfold Index.acceptCommission. rewrite Hk. cbn. kept.
  - destruct (commissions st !! k) as [c|] eqn:Hk.
    + rewrite (reject_unfold _ _ _ Hk). through_guard; [written k id c | kept].
    + unfold Index.rejectCommission. rewrite Hk. cbn. kept.
  - destruct (commissions st !! k) as [c|] eqn:Hk.
    + rewrite (submit_unfold _ _ _ Hk). through_guard; [written k id c | kept].
    + unfold Index.submitArtwork. rewrite Hk. cbn. kept.
  - destruct (commissions st !! k) as [c|] eqn:Hk.
    + rewrite (cancel_unfold _ _ _ Hk). through_guard; [written k id c | kept].
    + unfold Index.cancelCommission. rewrite Hk. cbn. kept.
Qed.

(** Artists are only ever added by [createArtist]. *)
Lemma step_artist (call : Index.Call) (st : State) (k : Principal) (a : Artist) :
  artists (Index.step call st) !! k = Some a ->
  artists st !! k = Some a
  \/ (exists n p r, call = Index.CreateArtist k n p r /\ a = mkArtist k n p r).
Proof.
  destruct call as [f n p r|f n|f a' cu|i|i|i|i|i url|i]; cbn [Index.step].
  - cbn. destruct (decide (f = k)) as [->|Hne].
    + rewrite lookup_insert_eq. intros [= <-]. right. eauto.
    + rewrite lookup_insert_ne by done. auto.
  - cbn. auto.
  - unfold Index.createCommission.
    destruct (artists st !! a'); [destruct (customers st !! cu) |]; cbn; auto.
  - unfold Index.approveCommission. destruct (commissions st !! i); [| cbn; auto].
    cbv zeta. destruct (negb _); cbn; auto.
  - unfold Index.requestRevision. destruct (commissions st !! i); [| cbn; auto].
    cbv zeta. destruct (negb _); [cbn; auto |]. destruct (Z.eqb _ _); cbn; auto.
  - unfold Index.acceptCommission. destruct (commissions st !! i); [| cbn; auto].
    cbv zeta. destruct (negb _); cbn; auto.
  - unfold Index.rejectCommission. destruct (commissions st !! i); [| cbn; auto].
    cbv zeta. destruct (negb _); cbn; auto.
  - unfold Index.submitArtwork. destruct (commissions st !! i); [| cbn; auto].
    cbv zeta. destruct (negb _); cbn; auto.
  - unfold Index.cancelCommission. destruct (commissions st !! i); [| cbn; auto].
    cbv zeta. destruct (negb _); cbn; auto.
Qed.

(** Induction along a run: what every call preserves holds at its end. *)
Lemma run_invariant (P : State -> Prop) (ok : Index.Call -> Prop) :
  (forall call st, ok call -> P st -> P (Index.step call st)) ->
  forall cs st, Forall ok cs -> P st -> P (Index.run cs st).
Proof.
  intros Hstep cs. induction cs as [|call cs IH]; intros st Hok HP; [exact HP |].
  inversion Hok; subst. cbn. apply IH; [assumption |]. by apply Hstep.
Qed.

(** A handler writes under the key it is called with, and nowhere else. *)
Lemma handler_frame (url op : string) h (st : State) (k id : Principal) :
  In (op, h) (handlers url) -> k <> id ->
  commissions (snd (h k st)) !! id = commissions st !! id.
Proof.
  intros Hin Hne. unfold handlers in Hin. cbn [In] in Hin.
  destruct Hin as [E|[E|[E|[E|[E|[E|[]]]]]]]; injection E as <- <-;
    destruct (commissions st !! k) as [c|] eqn:Hk.
  - rewrite (approve_unfold _ _ _ Hk). through_guard; [by rewrite lookup_insert_ne | done].
  - unfold Index.approveCommission. by rewrite Hk.
  - rewrite (revision_unfold _ _ _ Hk). through_guard; [| done].
    destruct (Z.eqb _ _); cbn; [done | by rewrite lookup_insert_ne].
  - unfold Index.requestRevision. by rewrite Hk.
  - rewrite (accept_unfold _ _ _ Hk). through_guard; [by rewrite lookup_insert_ne | done].
  - unfold Index.acceptCommission. by rewrite Hk.
  - rewrite (reject_unfold _ _ _ Hk). through_guard; [by rewrite lookup_insert_ne | done].
  - unfold Index.rejectCommission. by rewrite Hk.
  - rewrite (submit_unfold _ _ _ Hk). through_guard; [by rewrite lookup_insert_ne | done].
  - unfold Index.submitArtwork. by rewrite Hk.
  - rewrite (cancel_unfold _ _ _ Hk). through_guard; [by rewrite lookup_insert_ne | done].
  - unfold Index.cancelCommission. by rewrite Hk.
Qed.

(** ** The guard *)

(** C2. For every status and every operation name the guard of the source
    is the first-match chain of the six denial rules, in their order, and
    permits otherwise; the string it returns is ["valid"] exactly when the
    chain permits; and each handler surfaces a denial of its own operation
    as [InvalidTransaction "cannot <operation>: <reason>"], the store left
    as it was. *)
Theorem guard_first_match_chain (s : Status) (op : string) :
  Index.checkCommissionValidity s op = surfaced op (guard s op)
  /\ (guard s op = Permitted <-> Index.checkCommissionValidity s op = "valid")
  /\ (forall url h st id c reason,
        In (op, h) (handlers url) ->
        commissions st !! id = Some c ->
        status c = s ->
        guard s op = Denied reason ->
        h id st
        = (Err (Index.InvalidTransaction ("cannot " +:+ op +:+ ": " +:+ reason)), st)).
Proof.
  split; [apply check_refines_guard |]. split.
  - rewrite check_refines_guard. destruct (guard s op) as [|reason]; cbn.
    + tauto.
    + split; [discriminate |]. intros H.
      assert (E : String.eqb ("cannot " +:+ op +:+ ": " +:+ reason) "valid" = true)
        by (rewrite H; reflexivity).
      cbn in E. discriminate.
  - intros url h st id c reason Hin Hget <- Hg.
    exact (denied_handler url op h st id c reason Hin Hget Hg).
Qed.

Lemma guard_first_match_chain_witness :
  Index.cancelCommission "k1" st_pending
  = (Err (Index.InvalidTransaction
            "cannot cancel commission: commission has yet to be accepted"),
     st_pending).
Proof.
  destruct (guard_first_match_chain fresh_status m_cancel) as (_ & _ & H).
  apply (H EmptyString Index.cancelCommission st_pending "k1" (created "k1" "c1" (mkArtist "a1" "Ann" 100 1))
           "commission has yet to be accepted").
  - cbn. tauto.
  - reflexivity.
  - reflexivity.
  - reflexivity.
Defined.

(** ** Cancellation *)

(** C1, as stated, fails: a commission just created is not terminal, and
    [cancelCommission] denies it, because the fourth rule of the guard
    exempts only the accept and reject operations. *)
Lemma cancel_pending_counterexample :
  commissions st_pending !! "k1"
    = Some (mkCommission "k1" "c1" "a1" 100 1 EmptyString fresh_status)
  /\ terminal fresh_status = false
  /\ Index.cancelCommission "k1" st_pending
     = (Err (Index.InvalidTransaction
               "cannot cancel commission: commission has yet to be accepted"),
        st_pending)
  /\ ~ (forall st id c,
          commissions st !! id = Some c ->
          terminal (status c) = false ->
          exists c', fst (Index.cancelCommission id st) = Ok c'
                     /\ Cancelled (status c') = true).
Proof.
  split; [reflexivity |]. split; [reflexivity |]. split; [reflexivity |].
  intros H.
  destruct (H st_pending "k1" _ eq_refl eq_refl) as (c' & Hc & _).
  vm_compute in Hc. discriminate.
Qed.

(** C1, amended. On a commission that is not terminal and has been accepted
    (artwork handed in or not) [cancelCommission] returns [Ok] with
    [Cancelled] set and stores that record; on one that is not terminal and
    not yet accepted it returns [InvalidTransaction] with reason "commission
    has yet to be accepted"; on a terminal one it returns
    [InvalidTransaction]. The store is untouched by both denials. *)
Theorem cancel_needs_acceptance (st : State) (id : Principal) (c : Commission) :
  commissions st !! id = Some c ->
  (terminal (status c) = false -> Accepted (status c) = true ->
     let c' := set_status (set_Cancelled true (status c)) c in
     Index.cancelCommission id st = (Ok c', insert_commission id c' st)
     /\ Cancelled (status c') = true
     /\ commissions (insert_commission id c' st) !! id = Some c')
  /\ (terminal (status c) = false -> Accepted (status c) = false ->
        Index.cancelCommission id st
        = (Err (Index.InvalidTransaction
                  "cannot cancel commission: commission has yet to be accepted"),
           st))
  /\ (terminal (status c) = true ->
        exists reason,
          Index.cancelCommission id st
          = (Err (Index.InvalidTransaction ("cannot cancel commission: " +:+ reason)),
             st)).
Proof.
  intros Hget. rewrite (cancel_unfold _ _ _ Hget). split; [| split].
  - intros Hterm Hacc c'. split; [| split].
    + destruct (status c) as [pe ac re ar ap ca] eqn:Es.
      unfold terminal, guard in *; cbn in *; subst ac.
      destruct ca, ap, re; try discriminate. reflexivity.
    + reflexivity.
    + apply lookup_insert_eq.
  - intros Hterm Hacc.
    destruct (status c) as [pe ac re ar ap ca].
    unfold terminal, guard in *; cbn in *; subst ac.
    destruct ca, ap, re; try discriminate. reflexivity.
  - intros Hterm. destruct (guard_terminal (status c) m_cancel Hterm) as [reason ->].
    exists reason. reflexivity.
Qed.

Lemma cancel_needs_acceptance_witness :
  Index.cancelCommission "k1" st_submitted
  = (Ok (mkCommission "k1" "c1" "a1" 100 1 "u1"
           (mkStatus true true false true false true)),
     insert_commission "k1"
       (mkCommission "k1" "c1" "a1" 100 1 "u1"
          (mkStatus true true false true false true)) st_submitted).
Proof.
  destruct (cancel_needs_acceptance st_submitted "k1"
              (mkCommission "k1" "c1" "a1" 100 1 "u1"
                 (mkStatus true true false true false false)) eq_refl)
    as (H & _ & _).
  destruct (H eq_refl eq_refl) as (E & _ & _). exact E.
Defined.

(** ** Terminal commissions *)

(** C3. On an approved commission (not cancelled, not rejected) each of the
    six handlers returns [InvalidTransaction] with reason "commission has
    ended" and leaves the store as it was; on any terminal commission each
    of them returns [InvalidTransaction] and leaves the store as it was;
    and no call at all, short of a [createCommission] that draws the very
    identifier again, changes the stored record of a terminal commission. *)
Theorem terminal_allows_no_transition (st : State) (id : Principal) (c : Commission) :
  commissions st !! id = Some c ->
  (Approved (status c) = true -> Cancelled (status c) = false ->
   Rejected (status c) = false ->
     forall url op h, In (op, h) (handlers url) ->
       h id st
       = (Err (Index.InvalidTransaction ("cannot " +:+ op +:+ ": commission has ended")),
          st))
  /\ (terminal (status c) = true ->
        forall url op h, In (op, h) (handlers url) ->
          exists reason,
            h id st
            = (Err (Index.InvalidTransaction ("cannot " +:+ op +:+ ": " +:+ reason)),
               st))
  /\ (terminal (status c) = true ->
        forall call, ~ draws id call ->
          commissions (Index.step call st) !! id = Some c).
Proof.
  intros Hget. repeat split.
  - intros Hap Hca _ url op h Hin.
    apply (denied_handler url op h st id c _ Hin Hget).
    by apply guard_approved.
  - intros Hterm url op h Hin.
    destruct (guard_terminal (status c) op Hterm) as [reason Hg].
    exists reason. exact (denied_handler url op h st id c reason Hin Hget Hg).
  - intros Hterm call Hnd.
    assert (Hon : forall url op h k, In (op, h) (handlers url) ->
              commissions (snd (h k st)) !! id = Some c).
    { intros url op h k Hin. destruct (decide (k = id)) as [->|Hne].
      - destruct (guard_terminal (status c) op Hterm) as [reason Hg].
        by rewrite (denied_handler url op h st id c reason Hin Hget Hg).
      - by rewrite (handler_frame url op h st k id Hin Hne). }
    destruct call as [f n p r|f n|f a cu|k|k|k|k|k url|k]; cbn [Index.step].
    + exact Hget.
    + exact Hget.
    + unfold Index.createCommission.
      destruct (artists st !! a); [destruct (customers st !! cu) |]; cbn;
        try exact Hget.
      rewrite lookup_insert_ne; [exact Hget |].
      intros ->. apply Hnd. by exists a, cu.
    + apply (Hon EmptyString m_approve); cbn; tauto.
    + apply (Hon EmptyString m_revision); cbn; tauto.
    + apply (Hon EmptyString m_accept); cbn; tauto.
    + apply (Hon EmptyString m_reject); cbn; tauto.
    + apply (Hon url m_submit (fun i => Index.submitArtwork i url)); cbn; tauto.
    + apply (Hon EmptyString m_cancel); cbn; tauto.
Qed.

Lemma terminal_allows_no_transition_witness :
  Index.cancelCommission "k1" st_approved
  = (Err (Index.InvalidTransaction "cannot cancel commission: commission has ended"),
     st_approved).
Proof.
  destruct (terminal_allows_no_transition st_approved "k1"
              (mkCommission "k1" "c1" "a1" 100 1 "u1"
                 (mkStatus true true false true true false)) eq_refl)
    as (H & _ & _).
  apply (H eq_refl eq_refl eq_refl EmptyString m_cancel Index.cancelCommission).
  cbn. tauto.
Defined.

(** ** The revision budget *)

Lemma guard_revision_ready (s : Status) :
  Accepted s = true -> ArtworkSubmitted s = true -> terminal s = false ->
  guard s m_revision = Permitted.
Proof.
  destruct s as [pe ac re ar ap ca]; unfold terminal, guard; cbn.
  intros -> -> H. destruct ca, ap, re; try discriminate. reflexivity.
Qed.


(** C7. On a commission that is accepted, has its artwork handed in, is not
    terminal and has revisions left, [requestRevision] returns [Ok] with one
    revision less and [ArtworkSubmitted] cleared, every other field and flag
    as before (so accepted still, and not terminal), and stores that record;
    in the run of the specification (budget 1, accept, hand in ["u1"],
    request a revision) no revision is left. *)
Theorem request_revision_decrements :
  (forall st id c,
     commissions st !! id = Some c ->
     Accepted (status c) = true -> ArtworkSubmitted (status c) = true ->
     terminal (status c) = false -> (0 < remaining_revision c)%Z ->
     exists c',
       Index.requestRevision id st = (Ok c', insert_commission id c' st)
       /\ commissions (insert_commission id c' st) !! id = Some c'
       /\ remaining_revision c' = (remaining_revision c - 1)%Z
       /\ ArtworkSubmitted (status c') = false
       /\ Accepted (status c') = true
       /\ terminal (status c') = false
       /\ c' = set_status (set_ArtworkSubmitted false (status c))
                 (set_remaining_revision (remaining_revision c - 1) c))
  /\ Index.requestRevision "k1" st_submitted
     = (Ok (mkCommission "k1" "c1" "a1" 100 0 "u1"
              (mkStatus true true false false false false)),
        st_revised).
Proof.
  split; [| reflexivity].
  intros st id c Hget Hacc Hart Hterm Hpos.
  exists (set_status (set_ArtworkSubmitted false (status c))
            (set_remaining_revision (remaining_revision c - 1) c)).
  rewrite (revision_unfold _ _ _ Hget), (guard_revision_ready _ Hacc Hart Hterm).
  destruct (Z.eqb_spec (remaining_revision c) 0) as [Hz|Hz]; [lia |].
  split; [reflexivity |]. split; [apply lookup_insert_eq |].
  destruct (status c) as [pe ac re ar ap ca]; cbn in *. by repeat split.
Qed.

Lemma request_revision_decrements_witness :
  exists c',
    Index.requestRevision "k1" st_submitted
    = (Ok c', insert_commission "k1" c' st_submitted)
    /\ remaining_revision c' = 0%Z
    /\ ArtworkSubmitted (status c') = false.
Proof.
  destruct request_revision_decrements as [H _].
  destruct (H st_submitted "k1"
              (mkCommission "k1" "c1" "a1" 100 1 "u1"
                 (mkStatus true true false true false false))
              eq_refl eq_refl eq_refl eq_refl eq_refl)
    as (c' & E & _ & Hr & Ha & _).
  exists c'. split; [exact E |]. split; [exact Hr | exact Ha].
Defined.

(** C8. On a commission that passes the guard (accepted, artwork handed in,
    not terminal) with no revision left, [requestRevision] returns the error
    [NoRemainingRevision "no more revision can be made"], a case of its own
    beside [InvalidTransaction], and the store is left as it was: the record
    is still there with no revision left and its artwork handed in. *)
Theorem no_remaining_revision (st : State) (id : Principal) (c : Commission) :
  commissions st !! id = Some c ->
  Accepted (status c) = true -> ArtworkSubmitted (status c) = true ->
  terminal (status c) = false -> remaining_revision c = 0%Z ->
  Index.requestRevision id st
  = (Err (Index.NoRemainingRevision "no more revision can be made"), st)
  /\ (forall msg, fst (Index.requestRevision id st) <> Err (Index.InvalidTransaction msg))
  /\ commissions (snd (Index.requestRevision id st)) !! id = Some c
  /\ remaining_revision c = 0%Z /\ ArtworkSubmitted (status c) = true.
Proof.
  intros Hget Hacc Hart Hterm Hz.
  assert (E : Index.requestRevision id st
              = (Err (Index.NoRemainingRevision "no more revision can be made"), st)).
  { rewrite (revision_unfold _ _ _ Hget), (guard_revision_ready _ Hacc Hart Hterm).
    by rewrite Hz. }
  rewrite E. cbn. repeat split; auto.
Qed.

Lemma no_remaining_revision_witness :
  Index.requestRevision "k1" st_resubmitted
  = (Err (Index.NoRemainingRevision "no more revision can be made"), st_resubmitted).
Proof.
  apply (no_remaining_revision st_resubmitted "k1"
           (mkCommission "k1" "c1" "a1" 100 0 "u2"
              (mkStatus true true false true false false))
           eq_refl eq_refl eq_refl eq_refl eq_refl).
Defined.

(** ** Validation of arguments *)

(** The extra branch of the sibling's guard never fires: both guards agree. *)
Lemma sibling_guard_same (s : Status) (op : string) :
  SmartContract.checkCommissionValidity s op = Index.checkCommissionValidity s op.
Proof.
  unfold SmartContract.checkCommissionValidity, Index.checkCommissionValidity,
    SmartContract.status_remaining_revision, SmartContract.strict_eq.
  by rewrite andb_false_r.
Qed.

(** C5, on the code. [createArtist] and [createCustomer] of [src/index.ts]
    test nothing: called with the empty name they store the record under the
    identifier drawn and return it, and the map grows; the handlers of the
    same name in [src/smartcontract/index.ts] return [InvalidInput] and
    leave the store as it was. *)
Theorem empty_name_is_stored :
  (forall fresh p r st,
     Index.createArtist fresh EmptyString p r st
     = (mkArtist fresh EmptyString p r, insert_artist fresh (mkArtist fresh EmptyString p r) st)
     /\ artists (snd (Index.createArtist fresh EmptyString p r st)) !! fresh
        = Some (mkArtist fresh EmptyString p r))
  /\ (forall fresh st,
        Index.createCustomer fresh EmptyString st
        = (mkCustomer fresh EmptyString, insert_customer fresh (mkCustomer fresh EmptyString) st)
        /\ customers (snd (Index.createCustomer fresh EmptyString st)) !! fresh
           = Some (mkCustomer fresh EmptyString))
  /\ size (artists init) = 0
  /\ size (artists (snd (Index.createArtist "a1" EmptyString 100 2 init))) = 1
  /\ size (customers init) = 0
  /\ size (customers (snd (Index.createCustomer "c1" EmptyString init))) = 1
  /\ (forall fresh p r st,
        SmartContract.createArtist fresh EmptyString p r st
        = (Err (SmartContract.InvalidInput "Missing required fields in the artist object"),
           st))
  /\ (forall fresh st,
        SmartContract.createCustomer fresh EmptyString st
        = (Err (SmartContract.InvalidInput "Missing required fields in the customer object"),
           st)).
Proof.
  split; [| split].
  - intros fresh p r st. split; [reflexivity |]. cbn. apply lookup_insert_eq.
  - intros fresh st. split; [reflexivity |]. cbn. apply lookup_insert_eq.
  - repeat split.
Qed.

(** C6, on the code. On a commission the guard lets through (accepted, not
    terminal) [submitArtwork] of [src/index.ts] takes every url, the empty
    one too: it stores the url, sets [ArtworkSubmitted] and returns [Ok].
    The handler of the same name in [src/smartcontract/index.ts] does the
    same for a url that is not empty and returns [InvalidInput], the store
    left as it was, for the empty one. *)
Theorem submit_takes_any_url (st : State) (id : Principal) (c : Commission)
    (url : string) :
  commissions st !! id = Some c ->
  Accepted (status c) = true -> terminal (status c) = false ->
  let c' := set_status (set_ArtworkSubmitted true (status c)) (set_artURL url c) in
  Index.submitArtwork id url st = (Ok c', insert_commission id c' st)
  /\ artURL c' = url /\ ArtworkSubmitted (status c') = true
  /\ SmartContract.submitArtwork id url st
     = if String.eqb url EmptyString
       then (Err (SmartContract.InvalidInput
                    "Missing required fields in the artwork object"), st)
       else (Ok c', insert_commission id c' st).
Proof.
  intros Hget Hacc Hterm c'.
  assert (Hg : guard (status c) m_submit = Permitted).
  { destruct (status c) as [pe ac re ar ap ca]; unfold terminal, guard in *; cbn in *.
    subst ac. destruct ca, ap, re; try discriminate. reflexivity. }
  split; [| split; [| split]].
  - rewrite (submit_unfold _ _ _ Hget), Hg. reflexivity.
  - reflexivity.
  - reflexivity.
  - unfold SmartContract.submitArtwork. rewrite Hget. cbv zeta.
    change "submit artwork" with m_submit.
    rewrite sibling_guard_same, check_valid_test, Hg. reflexivity.
Qed.

Lemma submit_takes_any_url_witness :
  Index.submitArtwork "k1" EmptyString st_accepted
  = (Ok (mkCommission "k1" "c1" "a1" 100 1 EmptyString
           (mkStatus true true false true false false)),
     insert_commission "k1"
       (mkCommission "k1" "c1" "a1" 100 1 EmptyString
          (mkStatus true true false true false false)) st_accepted)
  /\ SmartContract.submitArtwork "k1" EmptyString st_accepted
     = (Err (SmartContract.InvalidInput "Missing required fields in the artwork object"),
        st_accepted).
Proof.
  destruct (submit_takes_any_url st_accepted "k1"
              (mkCommission "k1" "c1" "a1" 100 1 EmptyString
                 (mkStatus true true false false false false)) EmptyString
              eq_refl eq_refl eq_refl) as (E & _ & _ & E').
  split; [exact E | exact E'].
Defined.

(** ** Creation of a commission *)

(** C9. When the artist and the customer are both in their stores,
    [createCommission] returns [Ok] with a record that is stored under the
    identifier drawn, whose status has [Pending] set and every other flag
    clear, whose remaining revisions are the artist's [number_of_revision],
    whose url is empty and whose price is the artist's price; the price is a
    snapshot: no later call, short of a [createCommission] drawing the same
    identifier, changes it. When the artist or the customer is missing it
    returns [NotFound] and the store is left as it was. *)
Theorem create_commission_snapshot (fresh aID cID : Principal) (st : State) :
  (forall a cu,
     artists st !! aID = Some a -> customers st !! cID = Some cu ->
     exists c,
       Index.createCommission fresh aID cID st = (Ok c, insert_commission fresh c st)
       /\ commissions (insert_commission fresh c st) !! fresh = Some c
       /\ status c = mkStatus true false false false false false
       /\ remaining_revision c = number_of_revision a
       /\ artURL c = EmptyString
       /\ c_price c = price a
       /\ (forall call c',
             ~ draws fresh call ->
             commissions (Index.step call (insert_commission fresh c st)) !! fresh
               = Some c' ->
             c_price c' = price a))
  /\ (artists st !! aID = None \/ customers st !! cID = None ->
        exists msg,
          Index.createCommission fresh aID cID st = (Err (Index.NotFound msg), st)
          /\ commissions (snd (Index.createCommission fresh aID cID st))
             = commissions st).
Proof.
  split.
  - intros a cu Ha Hc. exists (created fresh cID a).
    unfold Index.createCommission. rewrite Ha, Hc. cbv zeta.
    split; [reflexivity |].
    assert (Hin : commissions (insert_commission fresh (created fresh cID a) st) !! fresh
                  = Some (created fresh cID a)) by apply lookup_insert_eq.
    repeat split; try exact Hin.
    intros call c' Hnd Hget'.
    destruct (step_commission call _ fresh c' Hget')
      as [(a' & cu' & _ & -> & _)|(c0 & Hk & _ & Hp & _)].
    + exfalso. apply Hnd. by exists a', cu'.
    + rewrite Hin in Hk. injection Hk as <-. exact Hp.
  - unfold Index.createCommission. intros [Ha|Hc].
    + rewrite Ha. eauto.
    + rewrite Hc. destruct (artists st !! aID); eauto.
Qed.

Lemma create_commission_snapshot_witness :
  exists c,
    Index.createCommission "k1" "a1" "c1" st_registered
    = (Ok c, insert_commission "k1" c st_registered)
    /\ remaining_revision c = 1%Z /\ c_price c = 100%N.
Proof.
  destruct (create_commission_snapshot "k1" "a1" "c1" st_registered) as [H _].
  destruct (H (mkArtist "a1" "Ann" 100 1) (mkCustomer "c1" "Bob") eq_refl eq_refl)
    as (c & E & _ & _ & Hr & _ & Hp & _).
  exists c. split; [exact E |]. split; [exact Hr | exact Hp].
Defined.

(** ** The Pending flag *)

(** C10. [createCommission] sets [Pending], and no call clears it: whatever
    record a call leaves under a key has [Pending] set if the record found
    there before had; so along every run from the empty store every stored
    commission has [Pending] set, accepted or terminal as it may be. *)
Theorem pending_never_cleared :
  (forall call st id c',
     (forall c, commissions st !! id = Some c -> Pending (status c) = true) ->
     commissions (Index.step call st) !! id = Some c' ->
     Pending (status c') = true)
  /\ (forall cs id c,
        commissions (Index.run cs init) !! id = Some c ->
        Pending (status c) = true).
Proof.
  assert (Hstep : forall call st id c',
     (forall c, commissions st !! id = Some c -> Pending (status c) = true) ->
     commissions (Index.step call st) !! id = Some c' ->
     Pending (status c') = true).
  { intros call st id c' Hold Hget'.
    destruct (step_commission call st id c' Hget')
      as [(a & cu & art & _ & _ & _ & ->)|(c & Hk & Hp & _)].
    - reflexivity.
    - rewrite Hp. by apply Hold. }
  split; [exact Hstep |].
  intros cs.
  apply (run_invariant
           (fun st => forall id c, commissions st !! id = Some c -> Pending (status c) = true)
           (fun _ => True)).
  - intros call st _ Hst id c'. apply Hstep. intros c. apply Hst.
  - by apply Forall_forall.
  - intros id c H. cbn in H. by rewrite lookup_empty in H.
Qed.

Lemma pending_never_cleared_witness :
  Pending (status (mkCommission "k1" "c1" "a1" 100 1 "u1"
                     (mkStatus true true false true true false))) = true.
Proof.
  destruct pending_never_cleared as [_ H].
  apply (H (demo_calls ++ [ Index.AcceptCommission "k1";
                            Index.SubmitArtwork "k1" "u1";
                            Index.ApproveCommission "k1" ])%list "k1").
  reflexivity.
Defined.

(** ** The lifecycle scheme *)

Lemma step_lifecycle (call : Index.Call) (id : Principal) (op : string)
    (f : Commission -> Commission) (st : State) :
  lifecycle call = Some (id, op, f) ->
  Index.step call st
  = match commissions st !! id with
    | Some c =>
        if is_permitted (guard (status c) op) && negb (exhausted op c)
        then insert_commission id (f c) st
        else st
    | None => st
    end.
Proof.
  destruct call as [x n p r|x n|x a cu|k|k|k|k|k url|k]; cbn [lifecycle];
    try discriminate; intros [= <- <- <-]; cbn [Index.step];
    destruct (commissions st !! k) as [c|] eqn:Hk.
  - rewrite (approve_unfold _ _ _ Hk). by destruct (guard _ _).
  - unfold Index.approveCommission. by rewrite Hk.
  - rewrite (revision_unfold _ _ _ Hk). destruct (guard _ _); [| done].
    unfold exhausted. cbn. by destruct (Z.eqb _ _).
  - unfold Index.requestRevision. by rewrite Hk.
  - rewrite (accept_unfold _ _ _ Hk). by destruct (guard _ _).
  - unfold Index.acceptCommission. by rewrite Hk.
  - rewrite (reject_unfold _ _ _ Hk). by destruct (guard _ _).
  - unfold Index.rejectCommission. by rewrite Hk.
  - rewrite (submit_unfold _ _ _ Hk). by destruct (guard _ _).
  - unfold Index.submitArtwork. by rewrite Hk.
  - rewrite (cancel_unfold _ _ _ Hk). by destruct (guard _ _).
  - unfold Index.cancelCommission. by rewrite Hk.
Qed.

(** A call is a lifecycle call or one of the three creations. *)
Lemma creation_or_lifecycle (call : Index.Call) :
  (exists id op f, lifecycle call = Some (id, op, f))
  \/ (exists x n p r, call = Index.CreateArtist x n p r)
  \/ (exists x n, call = Index.CreateCustomer x n)
  \/ (exists x a cu, call = Index.CreateCommission x a cu).
Proof. destruct call; cbn; eauto 10. Qed.

(** What a call leaves under a key of the commissions, to the letter. *)
Lemma step_commission_exact (call : Index.Call) (st : State) (id : Principal)
    (c' : Commission) :
  commissions (Index.step call st) !! id = Some c' ->
  (exists a cu art, call = Index.CreateCommission id a cu
      /\ artists st !! a = Some art /\ is_Some (customers st !! cu)
      /\ c' = created id cu art)
  \/ (exists c, commissions st !! id = Some c
        /\ (c' = c
            \/ exists op f, lifecycle call = Some (id, op, f)
                 /\ guard (status c) op = Permitted
                 /\ exhausted op c = false
                 /\ c' = f c)).
Proof.
  intros H.
  destruct (creation_or_lifecycle call)
    as [(k & op & f & Hl)|[(x & n & p & r & ->)|[(x & n & ->)|(x & a & cu & ->)]]].
  - rewrite (step_lifecycle call k op f st Hl) in H.
    destruct (commissions st !! k) as [c|] eqn:Hk; [| right; eauto].
    destruct (is_permitted (guard (status c) op) && negb (exhausted op c)) eqn:Hp;
      [| right; eauto].
    cbn in H. destruct (decide (k = id)) as [->|Hne].
    + rewrite lookup_insert_eq in H. injection H as <-. right.
      exists c. split; [done |]. right. exists op, f.
      apply andb_true_iff in Hp as [Hg He].
      destruct (guard (status c) op); [| discriminate].
      apply negb_true_iff in He. done.
    + rewrite lookup_insert_ne in H by done. right; eauto.
  - right; eauto.
  - right; eauto.
  - destruct (step_commission _ _ _ _ H) as [?|(c & Hk & _)]; [by left |].
    cbn in H. unfold Index.createCommission in H.
    destruct (artists st !! a) as [art|] eqn:Ha; [| right; eauto].
    destruct (customers st !! cu) as [cust|] eqn:Hc; [| right; eauto].
    cbn in H. destruct (decide (x = id)) as [->|Hne].
    + rewrite lookup_insert_eq in H. injection H as <-. left.
      exists a, cu, art. rewrite Hc. eauto.
    + rewrite lookup_insert_ne in H by done. right; eauto.
Qed.

(** Customers are only ever added by [createCustomer]. *)
Lemma step_customer (call : Index.Call) (st : State) (k : Principal) (c : Customer) :
  customers (Index.step call st) !! k = Some c ->
  customers st !! k = Some c
  \/ (exists n, call = Index.CreateCustomer k n /\ c = mkCustomer k n).
Proof.
  destruct (creation_or_lifecycle call)
    as [(i & op & f & Hl)|[(x & n & p & r & ->)|[(x & n & ->)|(x & a & cu & ->)]]].
  - rewrite (step_lifecycle call i op f st Hl).
    destruct (commissions st !! i); [| auto]. destruct (_ && _); cbn; auto.
  - cbn. auto.
  - cbn. destruct (decide (x = k)) as [->|Hne].
    + rewrite lookup_insert_eq. intros [= <-]. right. eauto.
    + rewrite lookup_insert_ne by done. auto.
  - cbn. unfold Index.createCommission.
    destruct (artists st !! a); [destruct (customers st !! cu) |]; cbn; auto.
Qed.

(** No call takes a key away. *)
Lemma step_keys_kept (call : Index.Call) (st : State) :
  keys_kept st (Index.step call st).
Proof.
  destruct (creation_or_lifecycle call)
    as [(i & op & f & Hl)|[(x & n & p & r & ->)|[(x & n & ->)|(x & a & cu & ->)]]].
  - rewrite (step_lifecycle call i op f st Hl).
    destruct (commissions st !! i) as [c|] eqn:Hi; [| by repeat split].
    destruct (_ && _); [| by repeat split].
    repeat split; cbn; try done.
    intros k Hk. rewrite lookup_insert_is_Some. destruct (decide (i = k)); auto.
  - repeat split; cbn; try done.
    intros k Hk. rewrite lookup_insert_is_Some. destruct (decide (x = k)); auto.
  - repeat split; cbn; try done.
    intros k Hk. rewrite lookup_insert_is_Some. destruct (decide (x = k)); auto.
  - cbn. unfold Index.createCommission.
    destruct (artists st !! a); [destruct (customers st !! cu) |]; cbn;
      try by repeat split.
    repeat split; cbn; try done.
    intros k Hk. rewrite lookup_insert_is_Some. destruct (decide (x = k)); auto.
Qed.

Lemma keys_kept_refl (st : State) : keys_kept st st.
Proof. by repeat split. Qed.

Lemma keys_kept_trans (st1 st2 st3 : State) :
  keys_kept st1 st2 -> keys_kept st2 st3 -> keys_kept st1 st3.
Proof.
  intros (A1 & B1 & C1) (A2 & B2 & C2). repeat split; intros k Hk; auto.
Qed.

Lemma handlers_facade (url : string) : handlers url = map fst (facade url).
Proof. reflexivity. Qed.

Lemma in_handlers_facade (url op : string) h :
  In (op, h) (handlers url) -> exists f, In (op, h, f) (facade url).
Proof.
  rewrite handlers_facade, in_map_iff. intros ([[op' h'] f] & [= -> ->] & Hin).
  by exists f.
Qed.

(** Every handler of the table follows the one scheme. *)
Lemma handler_outcome (url op : string) h f (st : State) (id : Principal) :
  In (op, h, f) (facade url) ->
  h id st
  = match commissions st !! id with
    | None =>
        (Err (Index.NotFound ("cannot " +:+ op +:+ ": commission=" +:+ id
                              +:+ " not found")), st)
    | Some c =>
        match guard (status c) op with
        | Denied reason => (Err (denial op reason), st)
        | Permitted =>
            if exhausted op c
            then (Err (Index.NoRemainingRevision "no more revision can be made"), st)
            else (Ok (f c), insert_commission id (f c) st)
        end
    end.
Proof.
  intros Hin. unfold facade in Hin. cbn [In] in Hin.
  destruct Hin as [E|[E|[E|[E|[E|[E|[]]]]]]]; injection E as <- <- <-;
    destruct (commissions st !! id) as [c|] eqn:Hk.
  - rewrite (approve_unfold _ _ _ Hk). by destruct (guard _ _).
  - unfold Index.approveCommission. by rewrite Hk.
  - rewrite (revision_unfold _ _ _ Hk). destruct (guard _ _); [| done].
    unfold exhausted. cbn. by destruct (Z.eqb _ _).
  - unfold Index.requestRevision. by rewrite Hk.
  - rewrite (accept_unfold _ _ _ Hk). by destruct (guard _ _).
  - unfold Index.acceptCommission. by rewrite Hk.
  - rewrite (reject_unfold _ _ _ Hk). by destruct (guard _ _).
  - unfold Index.rejectCommission. by rewrite Hk.
  - rewrite (submit_unfold _ _ _ Hk). by destruct (guard _ _).
  - unfold Index.submitArtwork. by rewrite Hk.
  - rewrite (cancel_unfold _ _ _ Hk). by destruct (guard _ _).
  - unfold Index.cancelCommission. by rewrite Hk.
Qed.

(** The guard on a commission that is not terminal. *)
Lemma guard_live (s : Status) (op : string) :
  terminal s = false ->
  guard s op
  = if negb (is_accept_or_reject op) && negb (Accepted s)
    then Denied "commission has yet to be accepted"
    else if Accepted s && is_accept_or_reject op
    then Denied "commission has been accepted"
    else if is_approve_or_revision op && negb (ArtworkSubmitted s)
    then Denied "artwork not finished"
    else Permitted.
Proof.
  destruct s as [pe ac re ar ap ca]; unfold terminal, guard; cbn.
  destruct ca, ap, re; try discriminate. reflexivity.
Qed.

(** ** Further properties of [src/index.ts] *)

(** X1. A lifecycle handler called with an identifier that is not a key of
    the commissions returns [NotFound] with the message "cannot <method>:
    commission=<id> not found", and the store is left as it was. *)
Theorem missing_commission_not_found (url op : string) h (st : State)
    (id : Principal) :
  In (op, h) (handlers url) ->
  commissions st !! id = None ->
  h id st
  = (Err (Index.NotFound ("cannot " +:+ op +:+ ": commission=" +:+ id +:+ " not found")),
     st).
Proof.
  intros Hin Hnone. destruct (in_handlers_facade url op h Hin) as [f Hf].
  by rewrite (handler_outcome url op h f st id Hf), Hnone.
Qed.

Lemma missing_commission_not_found_witness :
  Index.requestRevision "k9" st_pending
  = (Err (Index.NotFound "cannot request revision: commission=k9 not found"),
     st_pending).
Proof.
  apply (missing_commission_not_found EmptyString m_revision Index.requestRevision
           st_pending "k9").
  - cbn. tauto.
  - reflexivity.
Defined.

(** X2. The guard returns ["valid"] exactly when no terminal flag is set,
    [Accepted] is clear for the accept and reject methods and set for every
    other method name (known or not), and [ArtworkSubmitted] is set for the
    approve and request-revision methods. *)
Theorem guard_permits_exactly (s : Status) (op : string) :
  String.eqb (Index.checkCommissionValidity s op) "valid"
  = negb (terminal s)
    && (if is_accept_or_reject op then negb (Accepted s) else Accepted s)
    && (if is_approve_or_revision op then ArtworkSubmitted s else true).
Proof.
  rewrite <- (negb_involutive (String.eqb _ _)), check_valid_test.
  destruct (terminal s) eqn:Ht.
  - destruct (guard_terminal s op Ht) as [reason ->]. reflexivity.
  - rewrite (guard_live s op Ht).
    destruct (is_accept_or_reject op), (is_approve_or_revision op),
      (Accepted s), (ArtworkSubmitted s); reflexivity.
Qed.

(** X3. [acceptCommission] on a commission that is not terminal and not yet
    accepted returns [Ok] with [Accepted] set, nothing else changed, and
    stores it. Once a commission is accepted and not terminal, accepting it
    again and rejecting it are both denied with "commission has been
    accepted", the store left as it was. *)
Theorem accept_only_once (st : State) (id : Principal) (c : Commission) :
  commissions st !! id = Some c ->
  terminal (status c) = false ->
  (Accepted (status c) = false ->
     let c' := set_status (set_Accepted true (status c)) c in
     Index.acceptCommission id st = (Ok c', insert_commission id c' st)
     /\ Index.acceptCommission id (insert_commission id c' st)
        = (Err (Index.InvalidTransaction
                  "cannot accept commission: commission has been accepted"),
           insert_commission id c' st))
  /\ (Accepted (status c) = true ->
        Index.acceptCommission id st
        = (Err (Index.InvalidTransaction
                  "cannot accept commission: commission has been accepted"), st)
        /\ Index.rejectCommission id st
           = (Err (Index.InvalidTransaction
                     "cannot reject commission: commission has been accepted"), st)).
Proof.
  intros Hget Hterm. split.
  - intros Hacc c'. split.
    + rewrite (accept_unfold _ _ _ Hget), (guard_live _ _ Hterm), Hacc. reflexivity.
    + assert (Hget' : commissions (insert_commission id c' st) !! id = Some c')
        by apply lookup_insert_eq.
      rewrite (accept_unfold _ _ _ Hget'), guard_live.
      * reflexivity.
      * destruct (status c); exact Hterm.
  - intros Hacc. split.
    + rewrite (accept_unfold _ _ _ Hget), (guard_live _ _ Hterm), Hacc. reflexivity.
    + rewrite (reject_unfold _ _ _ Hget), (guard_live _ _ Hterm), Hacc. reflexivity.
Qed.

Lemma accept_only_once_witness :
  Index.acceptCommission "k1" st_pending
  = (Ok (mkCommission "k1" "c1" "a1" 100 1 EmptyString
           (mkStatus true true false false false false)),
     st_accepted)
  /\ Index.rejectCommission "k1" st_accepted
     = (Err (Index.InvalidTransaction
               "cannot reject commission: commission has been accepted"),
        st_accepted).
Proof.
  split.
  - destruct (accept_only_once st_pending "k1"
                (mkCommission "k1" "c1" "a1" 100 1 EmptyString fresh_status)
                eq_refl eq_refl) as [H _].
    destruct (H eq_refl) as [E _]. exact E.
  - destruct (accept_only_once st_accepted "k1"
                (mkCommission "k1" "c1" "a1" 100 1 EmptyString
                   (mkStatus true true false false false false))
                eq_refl eq_refl) as [_ H].
    destruct (H eq_refl) as [_ E]. exact E.
Defined.

(** X4. [rejectCommission] on a commission that is not terminal and not yet
    accepted returns [Ok] with [Rejected] set, nothing else changed, and
    stores it; from then on each of the six handlers is denied with
    "commission has been rejected" and leaves the store as it is. *)
Theorem reject_is_final (st : State) (id : Principal) (c : Commission) :
  commissions st !! id = Some c ->
  terminal (status c) = false -> Accepted (status c) = false ->
  let c' := set_status (set_Rejected true (status c)) c in
  let st' := insert_commission id c' st in
  Index.rejectCommission id st = (Ok c', st')
  /\ (forall url op h, In (op, h) (handlers url) ->
        h id st'
        = (Err (Index.InvalidTransaction
                  ("cannot " +:+ op +:+ ": commission has been rejected")), st')).
Proof.
  intros Hget Hterm Hacc c' st'. split.
  - rewrite (reject_unfold _ _ _ Hget), (guard_live _ _ Hterm), Hacc. reflexivity.
  - intros url op h Hin.
    apply (denied_handler url op h st' id c' _ Hin); [apply lookup_insert_eq |].
    destruct (status c) as [pe ac re ar ap ca]; unfold terminal in Hterm; cbn in *.
    destruct ca, ap; try discriminate. reflexivity.
Qed.

Lemma reject_is_final_witness :
  Index.acceptCommission "k1" (snd (Index.rejectCommission "k1" st_pending))
  = (Err (Index.InvalidTransaction
            "cannot accept commission: commission has been rejected"),
     snd (Index.rejectCommission "k1" st_pending)).
Proof.
  destruct (reject_is_final st_pending "k1"
              (mkCommission "k1" "c1" "a1" 100 1 EmptyString fresh_status)
              eq_refl eq_refl eq_refl) as [_ H].
  apply (H EmptyString m_accept Index.acceptCommission). cbn. tauto.
Defined.

(** X5. On a commission that is accepted and not terminal,
    [approveCommission] returns [Ok] with [Approved] set, which makes it
    terminal, when the artwork is handed in; when it is not, approving and
    requesting a revision are both denied with "artwork not finished", the
    latter even when no revision is left: the guard speaks before the
    budget is looked at. *)
Theorem approve_needs_artwork (st : State) (id : Principal) (c : Commission) :
  commissions st !! id = Some c ->
  terminal (status c) = false -> Accepted (status c) = true ->
  (ArtworkSubmitted (status c) = true ->
     let c' := set_status (set_Approved true (status c)) c in
     Index.approveCommission id st = (Ok c', insert_commission id c' st)
     /\ terminal (status c') = true)
  /\ (ArtworkSubmitted (status c) = false ->
        Index.approveCommission id st
        = (Err (Index.InvalidTransaction
                  "cannot approve commission: artwork not finished"), st)
        /\ Index.requestRevision id st
           = (Err (Index.InvalidTransaction
                     "cannot request revision: artwork not finished"), st)).
Proof.
  intros Hget Hterm Hacc. split.
  - intros Hart c'. split.
    + rewrite (approve_unfold _ _ _ Hget), (guard_live _ _ Hterm), Hacc, Hart.
      reflexivity.
    + unfold terminal. cbn. apply orb_true_iff. left. apply orb_true_r.
  - intros Hart. split.
    + rewrite (approve_unfold _ _ _ Hget), (guard_live _ _ Hterm), Hacc, Hart.
      reflexivity.
    + rewrite (revision_unfold _ _ _ Hget), (guard_live _ _ Hterm), Hacc, Hart.
      reflexivity.
Qed.

Lemma approve_needs_artwork_witness :
  Index.approveCommission "k1" st_submitted
  = (Ok (mkCommission "k1" "c1" "a1" 100 1 "u1"
           (mkStatus true true false true true false)),
     st_approved)
  /\ Index.requestRevision "k1" st_accepted
     = (Err (Index.InvalidTransaction
               "cannot request revision: artwork not finished"), st_accepted).
Proof.
  split.
  - destruct (approve_needs_artwork st_submitted "k1"
                (mkCommission "k1" "c1" "a1" 100 1 "u1"
                   (mkStatus true true false true false false))
                eq_refl eq_refl eq_refl) as [H _].
    destruct (H eq_refl) as [E _]. exact E.
  - destruct (approve_needs_artwork st_accepted "k1"
                (mkCommission "k1" "c1" "a1" 100 1 EmptyString
                   (mkStatus true true false false false false))
                eq_refl eq_refl eq_refl) as [_ H].
    destruct (H eq_refl) as [_ E]. exact E.
Defined.

(** X6. After a revision is granted the url handed in before is still on
    the record, yet the commission can be neither approved nor sent back
    again, both being denied with "artwork not finished", until
    [submitArtwork] is called once more, which succeeds for any url. The
    revision is granted whenever the remaining revisions differ from 0,
    negative ones included, as long as the decrement stays within [int8]
    (more than -128 left). *)
Theorem revision_needs_resubmission (st : State) (id : Principal) (c : Commission) :
  commissions st !! id = Some c ->
  terminal (status c) = false -> Accepted (status c) = true ->
  ArtworkSubmitted (status c) = true -> remaining_revision c <> 0%Z ->
  revisable c ->
  let c1 := set_status (set_ArtworkSubmitted false (status c))
              (set_remaining_revision (remaining_revision c - 1) c) in
  let st1 := insert_commission id c1 st in
  Index.requestRevision id st = (Ok c1, st1)
  /\ artURL c1 = artURL c
  /\ Index.approveCommission id st1
     = (Err (Index.InvalidTransaction
               "cannot approve commission: artwork not finished"), st1)
  /\ Index.requestRevision id st1
     = (Err (Index.InvalidTransaction
               "cannot request revision: artwork not finished"), st1)
  /\ (forall url,
        let c2 := set_status (set_ArtworkSubmitted true (status c1)) (set_artURL url c1) in
        Index.submitArtwork id url st1 = (Ok c2, insert_commission id c2 st1)).
Proof.
  intros Hget Hterm Hacc Hart Hz _ c1 st1.
  assert (Hget1 : commissions st1 !! id = Some c1) by apply lookup_insert_eq.
  assert (Hterm1 : terminal (status c1) = false)
    by (destruct (status c); exact Hterm).
  assert (Hacc1 : Accepted (status c1) = true)
    by (destruct (status c); exact Hacc).
  assert (Hart1 : ArtworkSubmitted (status c1) = false) by reflexivity.
  split; [| split; [| split; [| split]]].
  - rewrite (revision_unfold _ _ _ Hget), (guard_live _ _ Hterm), Hacc, Hart.
    cbn. destruct (Z.eqb_spec (remaining_revision c) 0); [done | reflexivity].
  - reflexivity.
  - rewrite (approve_unfold _ _ _ Hget1), (guard_live _ _ Hterm1), Hacc1, Hart1.
    reflexivity.
  - rewrite (revision_unfold _ _ _ Hget1), (guard_live _ _ Hterm1), Hacc1, Hart1.
    reflexivity.
  - intros url c2.
    rewrite (submit_unfold _ _ _ Hget1), (guard_live _ _ Hterm1), Hacc1.
    reflexivity.
Qed.

Lemma revision_needs_resubmission_witness :
  Index.approveCommission "k1" st_revised
  = (Err (Index.InvalidTransaction
            "cannot approve commission: artwork not finished"), st_revised)
  /\ commissions st_revised !! "k1"
     = Some (mkCommission "k1" "c1" "a1" 100 0 "u1"
               (mkStatus true true false false false false)).
Proof.
  destruct (revision_needs_resubmission st_submitted "k1"
              (mkCommission "k1" "c1" "a1" 100 1 "u1"
                 (mkStatus true true false true false false))
              eq_refl eq_refl eq_refl eq_refl) as (_ & _ & E & _).
  - discriminate.
  - unfold revisable. cbn. lia.
  - split; [exact E | reflexivity].
Defined.



(** X8. Every handler either fails and returns the store it was given, or
    succeeds on a commission the guard let through and returns the store
    with exactly that key rewritten to the record it returns, provided,
    for [requestRevision], that the decrement of the stored commission
    stays within [int8] (from -128 the call gives no reply at all);
    [createCommission] likewise either fails with the store untouched or
    adds the record it returns under the identifier drawn. *)
Theorem all_or_nothing (st : State) (id : Principal) :
  (forall url op h, In (op, h) (handlers url) ->
     (op = m_revision -> forall c, commissions st !! id = Some c -> revisable c) ->
     (exists e, h id st = (Err e, st))
     \/ (exists c c', commissions st !! id = Some c
           /\ guard (status c) op = Permitted
           /\ h id st = (Ok c', insert_commission id c' st)))
  /\ (forall a cu,
        (exists e, Index.createCommission id a cu st = (Err e, st))
        \/ (exists c', Index.createCommission id a cu st
                       = (Ok c', insert_commission id c' st))).
Proof.
  split.
  - intros url op h Hin _. destruct (in_handlers_facade url op h Hin) as [f Hf].
    rewrite (handler_outcome url op h f st id Hf).
    destruct (commissions st !! id) as [c|]; [| eauto].
    destruct (guard (status c) op) eqn:Hg; [| eauto].
    destruct (exhausted op c); eauto 6.
  - intros a cu. unfold Index.createCommission.
    destruct (artists st !! a); [| eauto].
    destruct (customers st !! cu); eauto.
Qed.

Lemma all_or_nothing_witness :
  (exists e, Index.requestRevision "k1" st_submitted = (Err e, st_submitted))
  \/ (exists c c', commissions st_submitted !! "k1" = Some c
        /\ guard (status c) m_revision = Permitted
        /\ Index.requestRevision "k1" st_submitted
           = (Ok c', insert_commission "k1" c' st_submitted)).
Proof.
  destruct (all_or_nothing st_submitted "k1") as [H _].
  apply (H EmptyString m_revision Index.requestRevision).
  - cbn. tauto.
  - intros _ c Hc. vm_compute in Hc. injection Hc as <-.
    unfold revisable. cbn. lia.
Defined.

(** X9. A lifecycle handler called on a key leaves the artists and the
    customers as they are, leaves every other commission as it is, and
    neither adds nor removes a key of the commissions. *)
Theorem lifecycle_frame (url op : string) h (st : State) (k : Principal) :
  In (op, h) (handlers url) ->
  artists (snd (h k st)) = artists st
  /\ customers (snd (h k st)) = customers st
  /\ (forall id, id <> k ->
        commissions (snd (h k st)) !! id = commissions st !! id)
  /\ (forall id, is_Some (commissions (snd (h k st)) !! id)
                 <-> is_Some (commissions st !! id)).
Proof.
  intros Hin. destruct (in_handlers_facade url op h Hin) as [f Hf].
  rewrite (handler_outcome url op h f st k Hf).
  destruct (commissions st !! k) as [c|] eqn:Hk; [| done].
  destruct (guard (status c) op); [| done].
  destruct (exhausted op c); [done |]. cbn. repeat split; try done.
  - intros id Hne. by rewrite lookup_insert_ne.
  - rewrite lookup_insert_is_Some. intros [<-|[_ H]]; [by exists c | done].
  - intros H. rewrite lookup_insert_is_Some. destruct (decide (k = id)); auto.
Qed.

Lemma lifecycle_frame_witness :
  artists (snd (Index.cancelCommission "k1" st_accepted)) = artists st_accepted
  /\ customers (snd (Index.cancelCommission "k1" st_accepted)) = customers st_accepted.
Proof.
  destruct (lifecycle_frame EmptyString m_cancel Index.cancelCommission st_accepted "k1")
    as (A & B & _).
  - cbn. tauto.
  - split; [exact A | exact B].
Defined.

(** The update of a lifecycle call keeps the identifiers and the price. *)
Lemma lifecycle_keeps_ids (call : Index.Call) (id : Principal) (op : string)
    (f : Commission -> Commission) (c : Commission) :
  lifecycle call = Some (id, op, f) ->
  commissionID (f c) = commissionID c
  /\ c_customerID (f c) = c_customerID c
  /\ c_artistID (f c) = c_artistID c
  /\ c_price (f c) = c_price c.
Proof.
  destruct call; cbn [lifecycle]; try discriminate; intros [= <- <- <-]; done.
Qed.

Lemma run_keys_kept (cs : list Index.Call) (st : State) :
  keys_kept st (Index.run cs st).
Proof.
  revert st. induction cs as [|call cs IH]; intros st; [apply keys_kept_refl |].
  cbn. eapply keys_kept_trans; [apply step_keys_kept | apply IH].
Qed.

Lemma keys_size {A : Type} (m m' : gmap string A) :
  (forall k, is_Some (m !! k) -> is_Some (m' !! k)) -> size m <= size m'.
Proof.
  intros H. rewrite <- !size_dom. apply subseteq_size.
  intros k. rewrite !elem_of_dom. apply H.
Qed.

(** X10. The three stores only grow: whatever calls are run, from whatever
    store, every key present before is present after, so no map ever gets
    smaller. Nothing in the canister removes an artist, a customer or a
    commission. *)
Theorem ledger_append_only (cs : list Index.Call) (st : State) :
  keys_kept st (Index.run cs st)
  /\ size (artists st) <= size (artists (Index.run cs st))
  /\ size (customers st) <= size (customers (Index.run cs st))
  /\ size (commissions st) <= size (commissions (Index.run cs st)).
Proof.
  pose proof (run_keys_kept cs st) as (A & B & C).
  split; [by repeat split |].
  split; [by apply keys_size |]. split; by apply keys_size.
Qed.

Lemma ledger_append_only_witness :
  is_Some (commissions
             (Index.run [ Index.AcceptCommission "k1"; Index.CancelCommission "k1" ]
                st_pending) !! "k1").
Proof.
  destruct (ledger_append_only
              [ Index.AcceptCommission "k1"; Index.CancelCommission "k1" ] st_pending)
    as ((_ & _ & H) & _).
  apply H. by eexists.
Defined.

(** X11. Along every run from the empty store the flags of a stored
    commission are those of one stage of the lifecycle: [Pending] is set;
    artwork is handed in only on an accepted commission; an approved one is
    accepted, has its artwork and is not cancelled; a rejected one is
    neither accepted, approved nor cancelled; a cancelled one is accepted.
    So at most one of the three terminal flags is set. And a commission not
    yet accepted has the empty url. *)
Theorem reachable_status_shape (cs : list Index.Call) (id : Principal)
    (c : Commission) :
  commissions (Index.run cs init) !! id = Some c ->
  lifecycle_status (status c) = true
  /\ (Accepted (status c) = false -> artURL c = EmptyString).
Proof.
  revert id c.
  apply (run_invariant
           (fun st => forall id c, commissions st !! id = Some c ->
              lifecycle_status (status c) = true
              /\ (Accepted (status c) = false -> artURL c = EmptyString))
           (fun _ => True)).
  - intros call st _ Hst id c' Hget'.
    destruct (step_commission_exact call st id c' Hget')
      as [(a & cu & art & _ & _ & _ & ->)
         |(c & Hk & [->|(op & f & Hl & Hg & _ & ->)])].
    + by split.
    + by apply (Hst id).
    + destruct (Hst id c Hk) as [Hs Hu].
      destruct c as [k cu a p r u [pe ac re ar ap ca]].
      destruct call; cbn [lifecycle] in Hl; try discriminate;
        injection Hl as <- <- <-; cbn in *;
        destruct pe, ac, re, ar, ap, ca; try discriminate;
        vm_compute in Hg; try discriminate; split; try reflexivity;
        try discriminate; try (intros _; by apply Hu).
  - by apply Forall_forall.
  - intros id c H. cbn in H. by rewrite lookup_empty in H.
Qed.

Lemma reachable_status_shape_witness :
  lifecycle_status (mkStatus true true false true true false) = true.
Proof.
  apply (reachable_status_shape
           (demo_calls ++ [ Index.AcceptCommission "k1";
                            Index.SubmitArtwork "k1" "u1";
                            Index.ApproveCommission "k1" ])%list "k1"
           (mkCommission "k1" "c1" "a1" 100 1 "u1"
              (mkStatus true true false true true false))).
  reflexivity.
Defined.

Lemma consistent_step (call : Index.Call) (st : State) :
  consistent st -> consistent (Index.step call st).
Proof.
  intros (HA & HC & HK). pose proof (step_keys_kept call st) as (KA & KC & _).
  split; [| split].
  - intros k a H. destruct (step_artist call st k a H) as [H0|(n & p & r & _ & ->)];
      [by apply HA | reflexivity].
  - intros k c H. destruct (step_customer call st k c H) as [H0|(n & _ & ->)];
      [by apply HC | reflexivity].
  - intros k c' H.
    destruct (step_commission_exact call st k c' H)
      as [(a & cu & art & -> & Ha & Hcu & ->)
         |(c & Hk & [->|(op & f & Hl & _ & _ & ->)])].
    + cbn. split; [reflexivity |]. split.
      * apply KA. rewrite (HA a art Ha). by exists art.
      * by apply KC.
    + destruct (HK k c Hk) as (? & ? & ?). auto.
    + destruct (HK k c Hk) as (E1 & E2 & E3).
      destruct (lifecycle_keeps_ids call k op f c Hl) as (-> & -> & -> & _).
      auto.
Qed.

(** X12. Along every run from the empty store every artist, customer and
    commission is stored under its own identifier, and the artist and the
    customer a commission names are keys of their stores: the references
    taken at creation never dangle. *)
Theorem references_never_dangle (cs : list Index.Call) :
  consistent (Index.run cs init).
Proof.
  apply (run_invariant consistent (fun _ => True)).
  - intros call st _. apply consistent_step.
  - by apply Forall_forall.
  - split; [| split]; intros k x H; cbn in H; by rewrite lookup_empty in H.
Qed.

Lemma references_never_dangle_witness :
  is_Some (Index.readArtistById "a1" st_approved)
  /\ is_Some (Index.readCustomerById "c1" st_approved).
Proof.
  destruct (references_never_dangle
              (demo_calls ++ [ Index.AcceptCommission "k1";
                               Index.SubmitArtwork "k1" "u1";
                               Index.ApproveCommission "k1" ])%list)
    as (_ & _ & H).
  destruct (H "k1" (mkCommission "k1" "c1" "a1" 100 1 "u1"
                      (mkStatus true true false true true false)) eq_refl)
    as (_ & A & B).
  split; [exact A | exact B].
Defined.

(** X13. What a creating handler returns is what the query by identifier
    reads back under the identifier drawn, and the query reads every other
    identifier as before the creation. *)
Theorem create_then_read (x : Principal) (st : State) :
  (forall n p r,
     Index.readArtistById x (snd (Index.createArtist x n p r st))
     = Some (fst (Index.createArtist x n p r st))
     /\ forall k, k <> x ->
          Index.readArtistById k (snd (Index.createArtist x n p r st))
          = Index.readArtistById k st)
  /\ (forall n,
        Index.readCustomerById x (snd (Index.createCustomer x n st))
        = Some (fst (Index.createCustomer x n st))
        /\ forall k, k <> x ->
             Index.readCustomerById k (snd (Index.createCustomer x n st))
             = Index.readCustomerById k st)
  /\ (forall a cu c st',
        Index.createCommission x a cu st = (Ok c, st') ->
        Index.readCommissionById x st' = Some c
        /\ commissionID c = x
        /\ forall k, k <> x ->
             Index.readCommissionById k st' = Index.readCommissionById k st).
Proof.
  unfold Index.readArtistById, Index.readCustomerById, Index.readCommissionById.
  split; [| split].
  - intros n p r. cbn. split; [apply lookup_insert_eq |].
    intros k Hne. by rewrite lookup_insert_ne.
  - intros n. cbn. split; [apply lookup_insert_eq |].
    intros k Hne. by rewrite lookup_insert_ne.
  - intros a cu c st'. unfold Index.createCommission.
    destruct (artists st !! a); [| discriminate].
    destruct (customers st !! cu); [| discriminate].
    cbv zeta. intros [= <- <-]. cbn. split; [apply lookup_insert_eq |].
    split; [reflexivity |]. intros k Hne. by rewrite lookup_insert_ne.
Qed.

Lemma create_then_read_witness :
  Index.readCommissionById "k1" st_pending
  = Some (mkCommission "k1" "c1" "a1" 100 1 EmptyString fresh_status).
Proof.
  destruct (create_then_read "k1" st_registered) as (_ & _ & H).
  destruct (H "a1" "c1" (mkCommission "k1" "c1" "a1" 100 1 EmptyString fresh_status)
              st_pending eq_refl) as [E _].
  exact E.
Defined.

(** X14. [createCommission] looks the artist up first: with no such artist
    it returns [NotFound] naming the artist, whether or not the customer
    exists; with the artist but no such customer it returns [NotFound]
    naming the customer. Neither case draws an identifier into the
    store. *)
Theorem create_commission_not_found (x a cu : Principal) (st : State) :
  (artists st !! a = None ->
     Index.createCommission x a cu st
     = (Err (Index.NotFound ("cannot create the commission: artist=" +:+ a
                             +:+ " not found")), st))
  /\ (is_Some (artists st !! a) -> customers st !! cu = None ->
        Index.createCommission x a cu st
        = (Err (Index.NotFound ("cannot create the commission: customer=" +:+ cu
                                +:+ " not found")), st)).
Proof.
  unfold Index.createCommission. split.
  - by intros ->.
  - by intros [art ->] ->.
Qed.

Lemma create_commission_not_found_witness :
  Index.createCommission "k2" "a9" "c9" st_registered
  = (Err (Index.NotFound "cannot create the commission: artist=a9 not found"),
     st_registered)
  /\ Index.createCommission "k2" "a1" "c9" st_registered
     = (Err (Index.NotFound "cannot create the commission: customer=c9 not found"),
        st_registered).
Proof.
  split.
  - destruct (create_commission_not_found "k2" "a9" "c9" st_registered) as [H _].
    apply H. reflexivity.
  - destruct (create_commission_not_found "k2" "a1" "c9" st_registered) as [_ H].
    apply H; [by eexists | reflexivity].
Defined.

(** ** What no call does *)

(** X16. [NoRemainingRevision] is returned by [requestRevision] alone, and
    only for a stored commission that passed the guard (accepted, artwork
    handed in, not terminal) and has 0 revisions left. *)
Theorem no_remaining_revision_only_if (url op : string) h (st : State)
    (id : Principal) (msg : string) :
  In (op, h) (handlers url) ->
  fst (h id st) = Err (Index.NoRemainingRevision msg) ->
  op = m_revision
  /\ msg = "no more revision can be made"
  /\ exists c, commissions st !! id = Some c
       /\ remaining_revision c = 0%Z
       /\ Accepted (status c) = true /\ ArtworkSubmitted (status c) = true
       /\ terminal (status c) = false.
Proof.
  intros Hin. destruct (in_handlers_facade url op h Hin) as [f Hf].
  rewrite (handler_outcome url op h f st id Hf).
  destruct (commissions st !! id) as [c|]; [| discriminate].
  destruct (guard (status c) op) eqn:Hg; [| discriminate].
  destruct (exhausted op c) eqn:He; [| discriminate].
  cbn. intros [= <-]. unfold exhausted in He.
  apply andb_true_iff in He as [Hop Hz].
  apply String.eqb_eq in Hop. subst op. apply Z.eqb_eq in Hz.
  split; [reflexivity |]. split; [reflexivity |]. exists c.
  destruct (status c) as [pe ac re ar ap ca]; unfold terminal; cbn.
  destruct ac, re, ar, ap, ca; vm_compute in Hg; try discriminate; auto.
Qed.

Lemma no_remaining_revision_only_if_witness :
  exists c, commissions st_resubmitted !! "k1" = Some c
            /\ remaining_revision c = 0%Z.
Proof.
  destruct (no_remaining_revision_only_if EmptyString m_revision Index.requestRevision
              st_resubmitted "k1" "no more revision can be made")
    as (_ & _ & c & Hc & Hz & _).
  - cbn. tauto.
  - reflexivity.
  - exists c. split; [exact Hc | exact Hz].
Defined.

(** X17. No call, short of a [createCommission] drawing the identifier
    again, changes the identifiers of a stored commission or clears one of
    its flags [Accepted], [Approved], [Rejected], [Cancelled]; the only flag
    ever cleared is [ArtworkSubmitted], by [requestRevision] on that
    commission, and the url changes only by [submitArtwork] on it. *)
Theorem nothing_is_taken_back (call : Index.Call) (st : State) (id : Principal)
    (c c' : Commission) :
  commissions st !! id = Some c ->
  commissions (Index.step call st) !! id = Some c' ->
  ~ draws id call ->
  commissionID c' = commissionID c
  /\ c_customerID c' = c_customerID c
  /\ c_artistID c' = c_artistID c
  /\ (Accepted (status c) = true -> Accepted (status c') = true)
  /\ (Approved (status c) = true -> Approved (status c') = true)
  /\ (Rejected (status c) = true -> Rejected (status c') = true)
  /\ (Cancelled (status c) = true -> Cancelled (status c') = true)
  /\ (ArtworkSubmitted (status c) = true -> ArtworkSubmitted (status c') = false ->
        call = Index.RequestRevision id)
  /\ (artURL c' <> artURL c -> call = Index.SubmitArtwork id (artURL c')).
Proof.
  intros Hget Hget' Hnd.
  destruct (step_commission_exact call st id c' Hget')
    as [(a & cu & _ & -> & _)|(c0 & Hk & Hc')].
  { exfalso. apply Hnd. by exists a, cu. }
  rewrite Hget in Hk. injection Hk as <-.
  destruct Hc' as [->|(op & f & Hl & _ & _ & ->)].
  - repeat split; auto; try congruence.
  - destruct call; cbn [lifecycle] in Hl; try discriminate;
      injection Hl as <- <- <-; cbn;
      repeat split; auto; try congruence.
Qed.

Lemma nothing_is_taken_back_witness :
  Accepted (status (mkCommission "k1" "c1" "a1" 100 0 "u1"
                      (mkStatus true true false false false false))) = true.
Proof.
  destruct (nothing_is_taken_back (Index.RequestRevision "k1") st_submitted "k1"
              (mkCommission "k1" "c1" "a1" 100 1 "u1"
                 (mkStatus true true false true false false))
              (mkCommission "k1" "c1" "a1" 100 0 "u1"
                 (mkStatus true true false false false false))
              eq_refl eq_refl)
    as (_ & _ & _ & H & _).
  - intros (a & cu & E). discriminate.
  - apply H. reflexivity.
Defined.

(** ** The budget, spent round by round *)





(** X19. A commission that is not terminal and not yet accepted takes only
    a decision of the artist: every handler but [acceptCommission] and
    [rejectCommission] is denied with "commission has yet to be accepted",
    the store left as it was. *)
Theorem pending_takes_only_a_decision (url op : string) h (st : State)
    (id : Principal) (c : Commission) :
  In (op, h) (handlers url) ->
  commissions st !! id = Some c ->
  terminal (status c) = false -> Accepted (status c) = false ->
  op <> m_accept -> op <> m_reject ->
  h id st
  = (Err (Index.InvalidTransaction
            ("cannot " +:+ op +:+ ": commission has yet to be accepted")), st).
Proof.
  intros Hin Hget Hterm Hacc Ha Hr.
  apply (denied_handler url op h st id c _ Hin Hget).
  rewrite (guard_live _ _ Hterm), Hacc. unfold is_accept_or_reject.
  apply String.eqb_neq in Ha, Hr. by rewrite Ha, Hr.
Qed.

Lemma pending_takes_only_a_decision_witness :
  Index.submitArtwork "k1" "u1" st_pending
  = (Err (Index.InvalidTransaction
            "cannot submit artwork: commission has yet to be accepted"),
     st_pending).
Proof.
  apply (pending_takes_only_a_decision "u1" m_submit
           (fun id => Index.submitArtwork id "u1") st_pending "k1"
           (mkCommission "k1" "c1" "a1" 100 1 EmptyString fresh_status)).
  - cbn. tauto.
  - reflexivity.
  - reflexivity.
  - reflexivity.
  - discriminate.
  - discriminate.
Defined.

(** ** The revision budget, call by call *)




